(** * Verification of the list-request adapter and the image-upload widget
    of hys-manage-web.

    Sources embedded here:
    - src/src/utils/proTableRequest.ts : [getValueByPath],
      [createProTableRequest] (parameter transform, response transform,
      try/catch);
    - src/src/components/ImageUpload/index.tsx : [validateFileType], and the
      widget handlers [handleConfirm] / [handleCancel] of the multi-image
      variant (lines 106-133) and of the single-image variant
      (lines 835-852). *)

From Stdlib Require Import String Ascii List ZArith Bool Lia.
From Stdlib Require Import Sorting.Permutation QArith.
Import ListNotations.
Open Scope string_scope.
Set Warnings "-register-all".

(* ------------------------------------------------------------------ *)
(** ** JavaScript values *)

Module Js.

(** A JSON-like JavaScript value.  Numbers are modelled as integers (the
    data handled here is page indices, page sizes and counts); objects are
    association lists of their own properties in insertion order. *)
Inductive val : Type :=
| VUndef
| VNull
| VBool (b : bool)
| VNum (n : Z)
| VStr (s : string)
| VArr (l : list val)
| VObj (o : list (string * val)).

Definition obj := list (string * val).

(** Own-property lookup on an object; an absent key reads as [undefined]. *)
Fixpoint obj_get (o : obj) (k : string) : val :=
  match o with
  | [] => VUndef
  | (k', v) :: o' => if String.eqb k k' then v else obj_get o' k
  end.

(** [o[k] = v]: an existing key keeps its position, a new key is appended. *)
Fixpoint obj_set (o : obj) (k : string) (v : val) : obj :=
  match o with
  | [] => [(k, v)]
  | (k', v') :: o' =>
      if String.eqb k k' then (k', v) :: o' else (k', v') :: obj_set o' k v
  end.

(** Removing a key, as an object rest pattern [{k, ...rest}] does. *)
Definition obj_del (o : obj) (k : string) : obj :=
  filter (fun kv => negb (String.eqb k (fst kv))) o.

Definition is_digit (c : ascii) : bool :=
  let n := nat_of_ascii c in (48 <=? n)%nat && (n <=? 57)%nat.

Fixpoint digits_value (s : string) (acc : nat) : option nat :=
  match s with
  | EmptyString => Some acc
  | String c s' =>
      if is_digit c then digits_value s' (acc * 10 + (nat_of_ascii c - 48))
      else None
  end.

(** A canonical array index: decimal digits, no leading zero. *)
Definition array_index (k : string) : option nat :=
  match k with
  | EmptyString => None
  | String "0" EmptyString => Some 0%nat
  | String "0" _ => None
  | _ => digits_value k 0
  end.

(** The result of JavaScript code that may throw (or, for an async
    function, reject). *)
Inductive outcome (A : Type) : Type :=
| Ok (a : A)
| Throw (e : val).
Arguments Ok {A} a.
Arguments Throw {A} e.

Definition type_error : val := VStr "TypeError".

(** [v[k]]: property access.  It throws a TypeError on [null] and
    [undefined]; arrays expose their indices and [length], strings their
    [length]; other primitives have no own properties in this model, and
    members inherited from prototypes are not modelled. *)
Definition get (v : val) (k : string) : outcome val :=
  match v with
  | VUndef | VNull => Throw type_error
  | VObj o => Ok (obj_get o k)
  | VArr l =>
      if String.eqb k "length" then Ok (VNum (Z.of_nat (length l)))
      else match array_index k with
           | Some i => Ok (nth i l VUndef)
           | None => Ok VUndef
           end
  | VStr s =>
      if String.eqb k "length" then Ok (VNum (Z.of_nat (String.length s)))
      else Ok VUndef
  | _ => Ok VUndef
  end.

(** [value == null] *)
Definition loose_null (v : val) : bool :=
  match v with VUndef | VNull => true | _ => false end.

(** [typeof value === 'object'] ([typeof null] is ['object'] too). *)
Definition typeof_object (v : val) : bool :=
  match v with VNull | VArr _ | VObj _ => true | _ => false end.

Definition typeof_number (v : val) : bool :=
  match v with VNum _ => true | _ => false end.

Definition is_array (v : val) : bool :=
  match v with VArr _ => true | _ => false end.

(** Truthiness, for [||]. *)
Definition truthy (v : val) : bool :=
  match v with
  | VUndef | VNull | VBool false | VNum 0 | VStr "" => false
  | _ => true
  end.

(** [a || b] *)
Definition js_or (a b : val) : val := if truthy a then a else b.

(** [a ?? b] *)
Definition js_nullish (a b : val) : val := if loose_null a then b else a.

(** [s.split('.')] *)
Fixpoint split_dot_aux (s : string) (cur : string) : list string :=
  match s with
  | EmptyString => [cur]
  | String c s' =>
      if Ascii.eqb c "." then cur :: split_dot_aux s' ""
      else split_dot_aux s' (cur ++ String c "")
  end.

Definition split_dot (s : string) : list string := split_dot_aux s "".

End Js.

Import Js.

(* ------------------------------------------------------------------ *)
(** ** src/src/utils/proTableRequest.ts *)

Module ProTableRequest.

(** [getValueByPath(obj, path)]: the loop over [path.split('.')]. *)
Fixpoint get_keys (value : val) (keys : list string) : val :=
  match keys with
  | [] => value
  | key :: keys' =>
      if loose_null value || negb (typeof_object value) then VUndef
      else match get value key with
           | Ok v => get_keys v keys'
           | Throw _ => VUndef (* unreachable: [value] is a non-null object *)
           end
  end.

Definition getValueByPath (obj : val) (path : string) : val :=
  get_keys obj (split_dot path).

(** [ProTableResponse<T>] *)
Record ProTableResponse : Type := {
  data : list val;
  success : val;
  total : Z
}.

(** [ParamTransformConfig]; [None] is a field the caller left out. *)
Record ParamTransformConfig : Type := {
  currentTo : option string;
  pageSizeTo : option string;
  transformParamsFlag : option bool
}.

(** [ResponseTransformConfig] *)
Record ResponseTransformConfig : Type := {
  dataPath : option string;
  totalPath : option string
}.

(** [CreateProTableRequestOptions]; the custom transforms may throw. *)
Record Options : Type := {
  paramTransform : option ParamTransformConfig;
  responseTransform : option ResponseTransformConfig;
  transformParams : option (obj -> outcome val);
  transformResponse : option (val -> outcome ProTableResponse)
}.

(** [createProTableRequest(apiFunction)] with [options = {}]. *)
Definition no_options : Options :=
  {| paramTransform := None; responseTransform := None;
     transformParams := None; transformResponse := None |}.

(** An API function: it resolves to a value or rejects/throws. *)
Definition ApiFunction := val -> outcome val.

Definition or_default {A} (o : option A) (d : A) : A :=
  match o with Some a => a | None => d end.

(** [s || d] on a string. *)
Definition str_or (s d : string) : string := if String.eqb s "" then d else s.

(** The merged [config] of [createProTableRequest]: a field given in
    [options] overrides the one of [defaultOptions]. *)
Definition cfg_currentTo (o : Options) : string :=
  match paramTransform o with
  | Some p => or_default (currentTo p) "page"
  | None => "page"
  end.

Definition cfg_pageSizeTo (o : Options) : string :=
  match paramTransform o with
  | Some p => or_default (pageSizeTo p) "per"
  | None => "per"
  end.

Definition cfg_transformParams (o : Options) : bool :=
  match paramTransform o with
  | Some p => or_default (transformParamsFlag p) true
  | None => true
  end.

Definition cfg_dataPath (o : Options) : string :=
  match responseTransform o with
  | Some r => or_default (dataPath r) "data.list"
  | None => "data.list"
  end.

Definition cfg_totalPath (o : Options) : string :=
  match responseTransform o with
  | Some r => or_default (totalPath r) "data.total"
  | None => "data.total"
  end.

(** Lines 176-192: the parameter transform. *)
Definition apiParams (o : Options) (params : obj) : outcome val :=
  match transformParams o with
  | Some f => f params
  | None =>
      if cfg_transformParams o then
        let current := obj_get params "current" in
        let pageSize := obj_get params "pageSize" in
        let restParams := obj_del (obj_del params "current") "pageSize" in
        Ok (VObj (obj_set (obj_set restParams
                             (str_or (cfg_currentTo o) "page") current)
                          (str_or (cfg_pageSizeTo o) "per") pageSize))
      else Ok (VObj params)
  end.

(** Lines 202-211: the default response transform.  Reading
    [response.data] and [response.success] throws when [response] is
    [null] or [undefined]. *)
Definition defaultTransformResponse (o : Options) (response : val)
  : outcome ProTableResponse :=
  match get response "data" with
  | Throw e => Throw e
  | Ok _responseData =>
      let data := js_or (getValueByPath response
                           (str_or (cfg_dataPath o) "data.list")) (VArr []) in
      let total := js_or (getValueByPath response
                            (str_or (cfg_totalPath o) "data.total")) (VNum 0) in
      match get response "success" with
      | Throw e => Throw e
      | Ok s =>
          Ok {| data := match data with VArr l => l | _ => [] end;
                success := js_nullish s (VBool true);
                total := match total with VNum n => n | _ => 0%Z end |}
      end
  end.

(** The body of the [try] block (lines 176-212). *)
Definition tryBody (o : Options) (apiFunction : ApiFunction) (params : obj)
  : outcome ProTableResponse :=
  match apiParams o params with
  | Throw e => Throw e
  | Ok ap =>
      match apiFunction ap with
      | Throw e => Throw e
      | Ok response =>
          match transformResponse o with
          | Some f => f response
          | None => defaultTransformResponse o response
          end
      end
  end.

Definition errorResponse : ProTableResponse :=
  {| data := []; success := VBool false; total := 0%Z |}.

(** The async function returned by [createProTableRequest] (lines 170-221);
    [Throw] in its result would be a rejected promise.  The [sort] and
    [filter] arguments are not read. *)
Definition createProTableRequest (o : Options) (apiFunction : ApiFunction)
  (params : obj) : outcome ProTableResponse :=
  match tryBody o apiFunction params with
  | Ok r => Ok r
  | Throw _ => Ok errorResponse
  end.

(** [Array.isArray(v) ? v : []] and [typeof v === 'number' ? v : 0]. *)
Definition array_or_empty (v : val) : list val :=
  match v with VArr l => l | _ => [] end.

Definition number_or_zero (v : val) : Z :=
  match v with VNum n => n | _ => 0%Z end.

End ProTableRequest.

Import ProTableRequest.

(* ------------------------------------------------------------------ *)
(** ** src/src/components/ImageUpload/index.tsx *)

Module Upload.

(** [UploadFile['status']] as antd declares it. *)
Inductive FileStatus : Type :=
| Uploading
| Done
| Error
| Removed.

(** The fields of antd's [UploadFile] the handlers read; [status] and [url]
    are optional. *)
Record UploadFile : Type := {
  uid : string;
  name : string;
  status : option FileStatus;
  url : option string
}.

Definition is_done (f : UploadFile) : bool :=
  match status f with Some Done => true | _ => false end.

Definition is_uploading (f : UploadFile) : bool :=
  match status f with Some Uploading => true | _ => false end.

(** [file.url] used as a condition: set and non-empty. *)
Definition url_truthy (f : UploadFile) : bool :=
  match url f with Some u => negb (String.eqb u "") | None => false end.

(** The value handed to [onChange] / [onSuccess]: [string | string[]];
    [CUndef] is [allUrls[0]] on an empty array. *)
Inductive Committed : Type :=
| CStr (u : string)
| CArr (us : list string)
| CUndef.

(** Calls of the parent's callbacks, in order. *)
Inductive Event : Type :=
| OnChange (v : Committed)
| OnSuccess (v : Committed).

(** Which of the optional callbacks the parent passed. *)
Record Callbacks : Type := {
  hasOnChange : bool;
  hasOnSuccess : bool
}.

(** [onChange?.(v); onSuccess?.(v);] *)
Definition notify (cb : Callbacks) (v : Committed) : list Event :=
  (if hasOnChange cb then [OnChange v] else [])
  ++ (if hasOnSuccess cb then [OnSuccess v] else []).

(** [arr.slice(0, n)] *)
Definition slice0 {A} (l : list A) (n : Z) : list A :=
  if (0 <=? n)%Z then firstn (Z.to_nat n) l
  else firstn (Z.to_nat (Z.of_nat (length l) + n)) l.

(** [fileList.filter(file => file.status === 'done' && file.url)
       .map(file => file.url!)] *)
Definition doneUrls (fileList : list UploadFile) : list string :=
  map (fun f => match url f with Some u => u | None => "" end)
      (filter (fun f => is_done f && url_truthy f) fileList).

(** The multi-image variant (lines 36-461). *)
Module Multi.

Record State : Type := {
  modalVisible : bool;
  fileList : list UploadFile;
  imageUrls : list string
}.

Record Props : Type := {
  maxCount : Z;
  callbacks : Callbacks
}.

(** [handleConfirm] (lines 106-124). *)
Definition handleConfirm (p : Props) (st : State) : State * list Event :=
  let newUploadedFiles := doneUrls (fileList st) in
  if (0 <? length newUploadedFiles)%nat then
    let allUrls := slice0 (imageUrls st ++ newUploadedFiles) (maxCount p) in
    let result := if Z.eqb (maxCount p) 1
                  then match allUrls with u :: _ => CStr u | [] => CUndef end
                  else CArr allUrls in
    ({| modalVisible := false; fileList := []; imageUrls := allUrls |},
     notify (callbacks p) result)
  else (st, []).

(** [handleCancel] (lines 127-133). *)
Definition handleCancel (st : State) : State * list Event :=
  if existsb is_uploading (fileList st) then (st, [])
  else ({| modalVisible := false; fileList := []; imageUrls := imageUrls st |},
        []).

(** [handleRemove] (lines 135-148); [index] is [undefined] or a number. *)
Definition handleRemove (p : Props) (index : option Z) (st : State)
  : State * list Event :=
  if Z.eqb (maxCount p) 1 then
    ({| modalVisible := modalVisible st; fileList := fileList st;
        imageUrls := [] |}, notify (callbacks p) (CStr ""))
  else match index with
       | Some i =>
           let newUrls :=
             map snd (filter (fun '(j, _) => negb (Z.eqb (Z.of_nat j) i))
                             (combine (seq 0 (length (imageUrls st)))
                                      (imageUrls st))) in
           ({| modalVisible := modalVisible st; fileList := fileList st;
               imageUrls := newUrls |}, notify (callbacks p) (CArr newUrls))
       | None => (st, [])
       end.

End Multi.

(** The single-image variant (lines 742-1141). *)
Module Single.

Record State : Type := {
  modalVisible : bool;
  fileList : list UploadFile;
  imageUrl : option string
}.

(** [handleConfirm] (lines 835-846). *)
Definition handleConfirm (cb : Callbacks) (st : State) : State * list Event :=
  match find (fun f => is_done f && url_truthy f) (fileList st) with
  | Some f =>
      match url f with
      | Some u =>
          if negb (String.eqb u "") then
            ({| modalVisible := false; fileList := []; imageUrl := Some u |},
             notify cb (CStr u))
          else (st, [])
      | None => (st, [])
      end
  | None => (st, [])
  end.

(** [handleCancel] (lines 848-854). *)
Definition handleCancel (st : State) : State * list Event :=
  if existsb is_uploading (fileList st) then (st, [])
  else ({| modalVisible := false; fileList := []; imageUrl := imageUrl st |},
        []).

(** [handleRemove] (lines 856-860). *)
Definition handleRemove (cb : Callbacks) (st : State) : State * list Event :=
  ({| modalVisible := modalVisible st; fileList := fileList st;
      imageUrl := None |}, notify cb (CStr "")).

End Single.

(** Pressing Cancel [n] times. *)
Definition cancel_times_multi (n : nat) (st : Multi.State) : Multi.State :=
  Nat.iter n (fun s => fst (Multi.handleCancel s)) st.

Definition cancel_times_single (n : nat) (st : Single.State) : Single.State :=
  Nat.iter n (fun s => fst (Single.handleCancel s)) st.

(** ASCII part of [String.prototype.toLowerCase]. *)
Definition lower_ascii (c : ascii) : ascii :=
  let n := nat_of_ascii c in
  if (65 <=? n)%nat && (n <=? 90)%nat then ascii_of_nat (n + 32) else c.

Fixpoint toLowerCase (s : string) : string :=
  match s with
  | EmptyString => EmptyString
  | String c s' => String (lower_ascii c) (toLowerCase s')
  end.

(** [s.lastIndexOf('.')]; [None] stands for [-1]. *)
Fixpoint lastIndexOfDot (s : string) : option nat :=
  match s with
  | EmptyString => None
  | String c s' =>
      match lastIndexOfDot s' with
      | Some i => Some (S i)
      | None => if Ascii.eqb c "." then Some 0%nat else None
      end
  end.

(** [s.substring(i)] *)
Definition substringFrom (s : string) (i : nat) : string :=
  substring i (String.length s - i) s.

(** [mimeTypeMap[ext]] (lines 174-179); [None] is [undefined]. *)
Definition mimeTypeMap (ext : string) : option (list string) :=
  if String.eqb ext "png" then Some ["image/png"]
  else if String.eqb ext "jpeg" then Some ["image/jpeg"; "image/jpg"]
  else if String.eqb ext "jpg" then Some ["image/jpeg"; "image/jpg"]
  else if String.eqb ext "svg" then Some ["image/svg+xml"]
  else None.

(** The default [allowedExtensions]. *)
Definition defaultAllowedExtensions : list string := ["png"; "jpeg"; "jpg"; "svg"].

(** The extension as [validateFileType] derives it: [None] when the
    lower-cased name has no dot. *)
Definition fileExtension (fileName : string) : option string :=
  let lower := toLowerCase fileName in
  match lastIndexOfDot lower with
  | None => None
  | Some i => Some (substringFrom lower (S i))
  end.

(** The extension gate (lines 153-171). *)
Definition extensionGate (allowedExtensions : list string) (fileName : string)
  : bool :=
  match fileExtension fileName with
  | None => false
  | Some ext => existsb (fun e => String.eqb (toLowerCase e) ext) allowedExtensions
  end.

(** The MIME gate (lines 182-190), for an extension [ext]; the empty
    [file.type] is falsy. *)
Definition mimeGate (ext fileType : string) : bool :=
  if String.eqb fileType "" then true
  else existsb (fun mime => String.eqb fileType mime)
         (match mimeTypeMap ext with Some l => l | None => [] end).

(** [validateFileType] (lines 151-193); the [message.error] calls are not
    modelled. *)
Definition validateFileType (allowedExtensions : list string)
  (fileName fileType : string) : bool :=
  match fileExtension fileName with
  | None => false
  | Some fileExtension =>
      if negb (existsb (fun e => String.eqb (toLowerCase e) fileExtension)
                 allowedExtensions)
      then false
      else mimeGate fileExtension fileType
  end.

(** The entries [beforeUpload] counts as pending: uploading or done. *)
Definition activeCount (fl : list UploadFile) : nat :=
  length (filter (fun f => is_uploading f || is_done f) fl).

(** A browser [File] as [beforeUpload] reads it. *)
Record RawFile : Type := {
  file_name : string;
  file_type : string;
  file_size : Z
}.

(** [file.size / 1024 / 1024 < maxSize] over the rationals (floating-point
    rounding is not modelled). *)
Definition isValidSize (maxSize : Q) (size : Z) : bool :=
  negb (Qle_bool maxSize (inject_Z size / inject_Z 1048576)).

(** [beforeUpload] of the multi-image variant (lines 202-231): [true] admits
    the file, [false] is [Upload.LIST_IGNORE]; [currentFileList] is the batch
    the file belongs to. *)
Definition beforeUpload (p : Multi.Props) (maxSize : Q)
  (allowedExtensions : list string) (st : Multi.State)
  (file : RawFile) (currentFileList : list RawFile) : bool :=
  let currentUploadedCount := Z.of_nat (length (Multi.imageUrls st)) in
  let pendingUploadCount :=
    Z.of_nat (length (filter (fun f => is_uploading f || is_done f)
                             (Multi.fileList st))) in
  let newFilesCount := Z.of_nat (length currentFileList) in
  if (Multi.maxCount p <? currentUploadedCount + pendingUploadCount
                           + newFilesCount)%Z then false
  else if negb (isValidSize maxSize (file_size file)) then false
  else if negb (validateFileType allowedExtensions (file_name file)
                  (file_type file)) then false
  else true.

(** [onChange] of [uploadProps] (lines 232-246): each entry comes with
    [file.response?.url], the URL string [handleUpload] attached. *)
Definition onChangeFileList (info : list (UploadFile * option string))
  : list UploadFile :=
  map (fun '(f, responseUrl) =>
         match responseUrl with
         | Some u =>
             if is_done f && negb (String.eqb u "")
             then {| uid := uid f; name := name f; status := status f;
                     url := Some u |}
             else f
         | None => f
         end) info.

(** [onRemove] of [uploadProps] in the multi-image variant (lines 247-251). *)
Definition onRemove (file : UploadFile) (fileList : list UploadFile)
  : list UploadFile :=
  filter (fun item => negb (String.eqb (uid item) (uid file))) fileList.

(** The response of [uploadApi] as its declared type has it:
    [{success?: boolean; data?: string; errorMessage?: string}]. *)
Record UploadResponse : Type := {
  resp_success : option bool;
  resp_data : option string;
  resp_errorMessage : option string
}.

(** What [handleUpload] reports: [onSuccess] with the response carrying
    [url], or [onError] after showing the message. *)
Inductive UploadOutcome : Type :=
| UploadSucceeded (url : string)
| UploadFailed (message : val).

(** [error?.k] *)
Definition opt_get (e : val) (k : string) : val :=
  match get e k with Ok v => v | Throw _ => VUndef end.

(** [s || d] on an optional string, as a value. *)
Definition opt_str_or (s : option string) (d : string) : string :=
  match s with Some m => if String.eqb m "" then d else m | None => d end.

Section HandleUpload.

(** The build-time constant [API_URL]. *)
Variable API_URL : string.

(** The [catch] block of [handleUpload]. *)
Definition uploadCatch (error : val) : UploadOutcome :=
  UploadFailed (js_or (opt_get error "errorMessage")
                  (js_or (opt_get error "message")
                         (VStr "上传失败，请重试"))).

(** [handleUpload] of the multi-image and single-image variants
    (lines 66-103 and 795-832); [call] is the settled [uploadApi] call,
    [Throw] a rejection.  The progress callbacks are not modelled. *)
Definition handleUpload (call : outcome UploadResponse) : UploadOutcome :=
  match call with
  | Throw e => uploadCatch e
  | Ok response =>
      match resp_success response, resp_data response with
      | Some true, Some d =>
          if negb (String.eqb d "") then UploadSucceeded (API_URL ++ d)
          else uploadCatch (VObj [("message",
                   VStr (opt_str_or (resp_errorMessage response) "上传失败"))])
      | _, _ =>
          uploadCatch (VObj [("message",
            VStr (opt_str_or (resp_errorMessage response) "上传失败"))])
      end
  end.

End HandleUpload.

(** The second variant of the file (lines 463-740): one image, committed
    directly by [handleUpload], with an [uploading] flag.  The response of
    [uploadApi] is taken as it arrives, a JavaScript value; the
    [message] calls are not modelled. *)
Module Direct.

Record State : Type := {
  modalVisible : bool;
  fileList : list UploadFile;
  uploading : bool;
  imageUrl : val   (* [string | undefined] *)
}.

(** The calls the handlers make: the parent's [onChange] / [onSuccess],
    and the [onSuccess] / [onError] callbacks the Upload component hands
    to [customRequest]. *)
Inductive Event : Type :=
| OnChange (v : val)
| OnSuccess (v : val)
| UploadSuccess (response : val)
| UploadError (error : val).

(** [onChange?.(v); onSuccess?.(v);] *)
Definition notify (cb : Callbacks) (v : val) : list Event :=
  (if hasOnChange cb then [OnChange v] else [])
  ++ (if hasOnSuccess cb then [OnSuccess v] else []).

(** [response.success && response.data?.url] *)
Definition successUrl (response : val) : outcome val :=
  match get response "success" with
  | Throw e => Throw e
  | Ok s =>
      if truthy s then
        match get response "data" with
        | Throw e => Throw e
        | Ok d => if loose_null d then Ok VUndef else get d "url"
        end
      else Ok s
  end.

(** [new Error(response.errorMessage || '上传失败')], as the object the
    [catch] block receives (the string conversion of a non-string
    [errorMessage] is not modelled). *)
Definition failureError (response : val) : val :=
  VObj [("message", js_or (opt_get response "errorMessage") (VStr "上传失败"))].

Definition with_uploading (st : State) (b : bool) : State :=
  {| modalVisible := modalVisible st; fileList := fileList st;
     uploading := b; imageUrl := imageUrl st |}.

(** [handleUpload] (lines 517-547): [setUploading(true)], the [try] block,
    the [catch] block (which calls [onError]) and
    [finally { setUploading(false) }].  The parent's callbacks are taken
    not to throw.  The Upload component answers [UploadSuccess] and
    [UploadError] by calling [onChange] with its own file list, whose
    [setFileList(info.fileList)] then replaces the [fileList] set here;
    that later update belongs to the component and is not part of this
    function. *)
Definition handleUpload (cb : Callbacks) (call : outcome val) (st : State)
  : State * list Event :=
  let st1 := with_uploading st true in
  let '(st2, evs) :=
    match call with
    | Throw e => (st1, [UploadError e])
    | Ok response =>
        match successUrl response with
        | Ok url =>
            if truthy url then
              ({| modalVisible := false; fileList := [];
                  uploading := uploading st1; imageUrl := url |},
               (notify cb url ++ [UploadSuccess response])%list)
            else (st1, [UploadError (failureError response)])
        | Throw e => (st1, [UploadError e])
        end
    end in
  (with_uploading st2 false, evs).

(** [handleRemove] (lines 549-553). *)
Definition handleRemove (cb : Callbacks) (st : State) : State * list Event :=
  ({| modalVisible := modalVisible st; fileList := fileList st;
      uploading := uploading st; imageUrl := VUndef |}, notify cb (VStr "")).

End Direct.

End Upload.

Import Upload.

(** The options of the usage example in the doc comment of
    [createProTableRequest]. *)
Definition doc_example_options : Options :=
  {| paramTransform := Some {| currentTo := Some "pageNum";
                               pageSizeTo := Some "pageSize";
                               transformParamsFlag := None |};
     responseTransform := Some {| dataPath := Some "data.items";
                                  totalPath := Some "data.count" |};
     transformParams := None; transformResponse := None |}.

(** A value holding [v] under the nested keys [ks]: [{k1: {k2: ... v}}]. *)
Fixpoint nest (ks : list string) (v : val) : val :=
  match ks with
  | [] => v
  | k :: ks' => VObj [(k, nest ks' v)]
  end.

(** A path segment without a dot. *)
Definition no_dot (k : string) : bool :=
  forallb (fun c => negb (Ascii.eqb c ".")) (list_ascii_of_string k).

(* ------------------------------------------------------------------ *)
(** * Properties *)

Example split_dot_data_list : split_dot "data.list" = ["data"; "list"].
Proof. reflexivity. Qed.

Example adapt_example :
  createProTableRequest no_options
    (fun _ => Ok (VObj [("success", VBool true);
                        ("data", VObj [("list", VArr [VObj [("id", VNum 1)]]);
                                       ("total", VNum 1)])]))
    [("current", VNum 2); ("pageSize", VNum 15)]
  = Ok {| data := [VObj [("id", VNum 1)]]; success := VBool true; total := 1 |}.
Proof. reflexivity. Qed.

(** ** Object helpers *)

Lemma obj_get_set_same (o : obj) (k : string) (v : val) :
  obj_get (obj_set o k v) k = v.
Proof.
  induction o as [|[k' v'] o IH]; simpl.
  - now rewrite String.eqb_refl.
  - destruct (String.eqb k k') eqn:E; simpl.
    + now rewrite E.
    + now rewrite E.
Qed.

Lemma obj_get_set_other (o : obj) (k k' : string) (v : val) :
  k <> k' -> obj_get (obj_set o k v) k' = obj_get o k'.
Proof.
  intros Hne. induction o as [|[k0 v0] o IH]; simpl.
  - destruct (String.eqb k' k) eqn:E; [|reflexivity].
    apply String.eqb_eq in E. congruence.
  - destruct (String.eqb k k0) eqn:E; simpl.
    + apply String.eqb_eq in E. subst k0.
      destruct (String.eqb k' k) eqn:E'; [|reflexivity].
      apply String.eqb_eq in E'. congruence.
    + now rewrite IH.
Qed.

Lemma obj_get_del_other (o : obj) (k k' : string) :
  k <> k' -> obj_get (obj_del o k) k' = obj_get o k'.
Proof.
  intros Hne. unfold obj_del.
  induction o as [|[k0 v0] o IH]; simpl; [reflexivity|].
  destruct (String.eqb k k0) eqn:E; simpl.
  - apply String.eqb_eq in E. subst k0.
    destruct (String.eqb k' k) eqn:E'.
    + apply String.eqb_eq in E'. congruence.
    + exact IH.
  - now rewrite IH.
Qed.

Lemma keys_obj_set (o : obj) (k k' : string) (v : val) :
  In k' (map fst (obj_set o k v)) <-> In k' (map fst o) \/ k' = k.
Proof.
  induction o as [|[k0 v0] o IH]; simpl.
  - intuition.
  - destruct (String.eqb k k0) eqn:E; simpl.
    + apply String.eqb_eq in E. subst k0. intuition.
    + rewrite IH. intuition.
Qed.

Lemma keys_obj_del (o : obj) (k k' : string) :
  In k' (map fst (obj_del o k)) <-> In k' (map fst o) /\ k' <> k.
Proof.
  unfold obj_del.
  induction o as [|[k0 v0] o IH]; simpl.
  - intuition.
  - destruct (String.eqb k k0) eqn:E; simpl.
    + apply String.eqb_eq in E. subst k0. rewrite IH. intuition congruence.
    + apply String.eqb_neq in E. rewrite IH. intuition congruence.
Qed.

(** ** Claim C1 *)

(** C1: whatever the options, when the backend call rejects or throws, the
    request function resolves (it does not reject) to
    [{data: [], success: false, total: 0}]. *)
Theorem createProTableRequest_backend_failure
  (o : Options) (apiFunction : ApiFunction) (params : obj) (ap e : val)
  (Hparams : apiParams o params = Ok ap)
  (Hreject : apiFunction ap = Throw e) :
  createProTableRequest o apiFunction params
  = Ok {| data := []; success := VBool false; total := 0%Z |}.
Proof.
  unfold createProTableRequest, tryBody.
  rewrite Hparams, Hreject. reflexivity.
Qed.

Lemma createProTableRequest_backend_failure_witness :
  apiParams no_options [("current", VNum 1); ("pageSize", VNum 10)]
    = Ok (VObj [("page", VNum 1); ("per", VNum 10)])
  /\ createProTableRequest no_options (fun _ => Throw (VStr "Network Error"))
       [("current", VNum 1); ("pageSize", VNum 10)]
     = Ok {| data := []; success := VBool false; total := 0%Z |}.
Proof.
  split; [reflexivity|].
  apply (createProTableRequest_backend_failure no_options
           (fun _ => Throw (VStr "Network Error"))
           [("current", VNum 1); ("pageSize", VNum 10)]
           (VObj [("page", VNum 1); ("per", VNum 10)]) (VStr "Network Error"));
    reflexivity.
Defined.

(** ** Claim C2 *)

(** The object the default parameter transform hands to the backend. *)
Lemma apiParams_no_options (params : obj) :
  apiParams no_options params
  = Ok (VObj (obj_set (obj_set (obj_del (obj_del params "current") "pageSize")
                               "page" (obj_get params "current"))
                      "per" (obj_get params "pageSize"))).
Proof. reflexivity. Qed.

(** C2 (counterexample): a request that also carries a filter field named
    [page] does not keep that field's value: the default transform
    overwrites it with [current]. *)
Lemma default_param_transform_overwrites_page :
  obj_get [("current", VNum 2); ("pageSize", VNum 15); ("page", VNum 7)] "page"
    = VNum 7
  /\ apiParams no_options
       [("current", VNum 2); ("pageSize", VNum 15); ("page", VNum 7)]
     = Ok (VObj [("page", VNum 2); ("per", VNum 15)])
  /\ VNum 2 <> VNum 7.
Proof. split; [reflexivity | split; [reflexivity | discriminate]]. Qed.

(** C2 (amended): for a request with [current >= 1] and [pageSize > 0], the
    default parameter transform sends an object whose [page] is [current],
    whose [per] is [pageSize], which has no [current] or [pageSize] key, and
    which keeps every other field except one named [page] or [per] (those
    are overwritten); its keys are the request's other keys plus [page] and
    [per].  The request [{current: 2, pageSize: 15, name: 'cardio'}] gives
    [{page: 2, per: 15, name: 'cardio'}] (up to key order). *)
Theorem default_param_transform_renames
  (params : obj) (c s : Z)
  (Hcur : obj_get params "current" = VNum c) (Hc : (1 <= c)%Z)
  (Hsize : obj_get params "pageSize" = VNum s) (Hs : (0 < s)%Z) :
  (exists ap, apiParams no_options params = Ok (VObj ap)
     /\ obj_get ap "page" = VNum c /\ obj_get ap "per" = VNum s
     /\ (forall k, k <> "current" -> k <> "pageSize" -> k <> "page" ->
           k <> "per" -> obj_get ap k = obj_get params k)
     /\ (forall k, In k (map fst ap) <->
           (In k (map fst params) /\ k <> "current" /\ k <> "pageSize")
           \/ k = "page" \/ k = "per"))
  /\ (exists ap, apiParams no_options
                  [("current", VNum 2); ("pageSize", VNum 15);
                   ("name", VStr "cardio")] = Ok (VObj ap)
        /\ Permutation ap [("page", VNum 2); ("per", VNum 15);
                           ("name", VStr "cardio")]).
Proof.
  split.
  - rewrite apiParams_no_options. eexists. split; [reflexivity|].
    split; [|split; [|split]].
    + rewrite obj_get_set_other by discriminate.
      rewrite obj_get_set_same. exact Hcur.
    + rewrite obj_get_set_same. exact Hsize.
    + intros k H1 H2 H3 H4.
      rewrite obj_get_set_other by congruence.
      rewrite obj_get_set_other by congruence.
      rewrite obj_get_del_other by congruence.
      rewrite obj_get_del_other by congruence.
      reflexivity.
    + intros k. rewrite keys_obj_set, keys_obj_set, keys_obj_del, keys_obj_del.
      intuition congruence.
  - eexists. split; [reflexivity|].
    simpl. apply perm_trans with
      [("page", VNum 2); ("name", VStr "cardio"); ("per", VNum 15)].
    + apply perm_trans with
        [("name", VStr "cardio"); ("page", VNum 2); ("per", VNum 15)].
      * apply Permutation_refl.
      * apply perm_swap.
    + apply perm_skip, perm_swap.
Qed.

Lemma default_param_transform_renames_witness :
  apiParams no_options [("current", VNum 3); ("pageSize", VNum 20);
                        ("name", VStr "x")]
    = Ok (VObj [("name", VStr "x"); ("page", VNum 3); ("per", VNum 20)])
  /\ exists ap, apiParams no_options
                  [("current", VNum 2); ("pageSize", VNum 15);
                   ("name", VStr "cardio")] = Ok (VObj ap)
        /\ Permutation ap [("page", VNum 2); ("per", VNum 15);
                           ("name", VStr "cardio")].
Proof.
  split; [reflexivity|].
  apply (default_param_transform_renames
           [("current", VNum 3); ("pageSize", VNum 20); ("name", VStr "x")]
           3%Z 20%Z); first [reflexivity | lia].
Defined.

(** ** The default response transform *)

Lemma array_or_empty_js_or (v : val) :
  array_or_empty (js_or v (VArr [])) = array_or_empty v.
Proof. unfold js_or. destruct (truthy v) eqn:E; [reflexivity|]. destruct v; try reflexivity. now destruct l. Qed.

Lemma number_or_zero_js_or (v : val) :
  number_or_zero (js_or v (VNum 0)) = number_or_zero v.
Proof. unfold js_or. destruct (truthy v) eqn:E; [reflexivity|]. destruct v; try reflexivity. now destruct n. Qed.

(** What the request function resolves to when the backend call resolves
    and no custom response transform is configured: the error response
    when [response] is [null] or [undefined], the extracted fields
    otherwise. *)
Lemma createProTableRequest_resolved (o : Options) (apiFunction : ApiFunction)
  (params : obj) (ap response : val)
  (Hresp : transformResponse o = None) (Hpaths : responseTransform o = None)
  (Hparams : apiParams o params = Ok ap)
  (Hok : apiFunction ap = Ok response) :
  createProTableRequest o apiFunction params
  = Ok (match get response "success" with
        | Ok s =>
            {| data := array_or_empty (getValueByPath response "data.list");
               success := js_nullish s (VBool true);
               total := number_or_zero (getValueByPath response "data.total") |}
        | Throw _ => errorResponse
        end).
Proof.
  unfold createProTableRequest, tryBody.
  rewrite Hparams, Hok, Hresp.
  unfold defaultTransformResponse, cfg_dataPath, cfg_totalPath.
  rewrite Hpaths. simpl str_or.
  destruct response; try reflexivity; simpl get; cbv zeta;
    rewrite <- array_or_empty_js_or, <- number_or_zero_js_or; reflexivity.
Qed.

(** ** Claim C3 *)

(** C3 (counterexample): the backend resolves to the malformed payload [{}];
    the request function resolves to [{data: [], success: true, total: 0}],
    not to the error response with [success: false]. *)
Lemma malformed_empty_object_succeeds :
  createProTableRequest no_options (fun _ => Ok (VObj []))
    [("current", VNum 1); ("pageSize", VNum 10)]
  = Ok {| data := []; success := VBool true; total := 0%Z |}
  /\ createProTableRequest no_options (fun _ => Ok (VObj []))
       [("current", VNum 1); ("pageSize", VNum 10)]
     <> Ok {| data := []; success := VBool false; total := 0%Z |}.
Proof. split; [reflexivity | discriminate]. Qed.

(** C3 (amended): with the default response transform, a payload the
    backend resolves to whose [data.list] is not an array and whose
    [data.total] is not a number gives [data: []] and [total: 0] with
    [success] equal to [response.success ?? true] (so [{}] gives [true] and
    [{success: false}] gives [false]); a payload on which reading
    [success] throws ([null] or [undefined]) gives the error response. *)
Theorem malformed_payload_adapted
  (o : Options) (apiFunction : ApiFunction) (params : obj) (ap response : val)
  (Hresp : transformResponse o = None) (Hpaths : responseTransform o = None)
  (Hparams : apiParams o params = Ok ap)
  (Hok : apiFunction ap = Ok response)
  (Hlist : is_array (getValueByPath response "data.list") = false)
  (Htotal : typeof_number (getValueByPath response "data.total") = false) :
  createProTableRequest o apiFunction params
  = Ok {| data := [];
          success := match get response "success" with
                     | Ok s => js_nullish s (VBool true)
                     | Throw _ => VBool false
                     end;
          total := 0%Z |}.
Proof.
  rewrite (createProTableRequest_resolved o apiFunction params ap response)
    by assumption.
  destruct (get response "success"); [|reflexivity].
  unfold array_or_empty, number_or_zero.
  destruct (getValueByPath response "data.list"); try discriminate;
  destruct (getValueByPath response "data.total"); try discriminate;
  reflexivity.
Qed.

Lemma malformed_payload_adapted_witness :
  createProTableRequest no_options (fun _ => Ok (VObj []))
    [("current", VNum 1); ("pageSize", VNum 10)]
  = Ok {| data := []; success := VBool true; total := 0%Z |}.
Proof.
  apply (malformed_payload_adapted no_options (fun _ => Ok (VObj []))
           [("current", VNum 1); ("pageSize", VNum 10)]
           (VObj [("page", VNum 1); ("per", VNum 10)]) (VObj []));
    reflexivity.
Defined.

(** ** Claim C4 *)

(** C4 (counterexample): a backend [data.total] of [-1] is passed through,
    so [total] is not always non-negative. *)
Lemma negative_total_passed_through :
  createProTableRequest no_options
    (fun _ => Ok (VObj [("success", VBool true);
                        ("data", VObj [("list", VArr []); ("total", VNum (-1))])]))
    [("current", VNum 1); ("pageSize", VNum 10)]
  = Ok {| data := []; success := VBool true; total := (-1)%Z |}
  /\ ((-1) < 0)%Z.
Proof. split; [reflexivity | lia]. Qed.

(** C4 (amended): with the default response transform, [data] is an array
    ([data.list] when that is an array, [[]] otherwise or on failure),
    [total] is [data.total] when that is a number (of any sign) and [0]
    otherwise or on failure, [success] is [true] when the upstream field is
    absent and [false] whenever adaptation throws. *)
Theorem default_response_invariant
  (o : Options) (apiFunction : ApiFunction) (params : obj)
  (r : ProTableResponse)
  (Hresp : transformResponse o = None) (Hpaths : responseTransform o = None)
  (Hr : createProTableRequest o apiFunction params = Ok r) :
  (forall e, tryBody o apiFunction params = Throw e ->
     data r = [] /\ success r = VBool false /\ total r = 0%Z)
  /\ (forall ap response,
        apiParams o params = Ok ap -> apiFunction ap = Ok response ->
        loose_null response = false ->
        data r = array_or_empty (getValueByPath response "data.list")
        /\ total r = number_or_zero (getValueByPath response "data.total")
        /\ (get response "success" = Ok VUndef -> success r = VBool true)).
Proof.
  split.
  - intros e He. unfold createProTableRequest in Hr. rewrite He in Hr.
    injection Hr as <-. repeat split.
  - intros ap response Hp Hok Hnull.
    rewrite (createProTableRequest_resolved o apiFunction params ap response)
      in Hr by assumption.
    destruct response; try discriminate Hnull; simpl get in Hr |- *;
      injection Hr as <-; simpl; repeat split;
      intros Hs; injection Hs as Hs; now rewrite Hs.
Qed.

Lemma default_response_invariant_witness :
  total {| data := []; success := VBool true; total := (-1)%Z |} = (-1)%Z
  /\ (get (VObj [("data", VObj [("total", VNum (-1))])]) "success" = Ok VUndef
      -> success {| data := []; success := VBool true; total := (-1)%Z |}
         = VBool true).
Proof.
  destruct (default_response_invariant no_options
              (fun _ => Ok (VObj [("data", VObj [("total", VNum (-1))])]))
              [("current", VNum 1); ("pageSize", VNum 10)]
              {| data := []; success := VBool true; total := (-1)%Z |}
              eq_refl eq_refl eq_refl) as [_ H].
  destruct (H (VObj [("page", VNum 1); ("per", VNum 10)])
              (VObj [("data", VObj [("total", VNum (-1))])])
              eq_refl eq_refl eq_refl) as (_ & Ht & Hs).
  split; [exact Ht | exact Hs].
Defined.

(** ** Claim C6 *)

Lemma get_keys_undefined (ks : list string) : get_keys VUndef ks = VUndef.
Proof. now destruct ks. Qed.

(** C6: with the default response transform, a missing [data.total] gives
    [total: 0] and a [data.list] that is absent or not an array gives
    [data: []]; [getValueByPath] looks the keys of the dotted path up one
    after the other and yields [undefined] as soon as the current value is
    absent ([undefined]), [null] or not an object. *)
Theorem missing_fields_defaulted
  (o : Options) (apiFunction : ApiFunction) (params : obj) (ap response : val)
  (Hresp : transformResponse o = None) (Hpaths : responseTransform o = None)
  (Hparams : apiParams o params = Ok ap)
  (Hok : apiFunction ap = Ok response) :
  (getValueByPath response "data.total" = VUndef ->
     exists r, createProTableRequest o apiFunction params = Ok r
               /\ total r = 0%Z)
  /\ (is_array (getValueByPath response "data.list") = false ->
     exists r, createProTableRequest o apiFunction params = Ok r
               /\ data r = [])
  /\ (forall v path, getValueByPath v path = get_keys v (split_dot path))
  /\ getValueByPath response "data.list" = get_keys response ["data"; "list"]
  /\ (forall (o' : obj) k ks,
        get_keys (VObj o') (k :: ks) = get_keys (obj_get o' k) ks)
  /\ (forall (o' : obj) k ks,
        obj_get o' k = VUndef -> get_keys (VObj o') (k :: ks) = VUndef)
  /\ (forall v ks, ks <> [] -> (loose_null v || negb (typeof_object v)) = true ->
        get_keys v ks = VUndef).
Proof.
  pose proof (createProTableRequest_resolved o apiFunction params ap response
                Hresp Hpaths Hparams Hok) as Hr.
  split; [|split; [|split; [|split; [|split; [|split]]]]].
  - intros Ht. eexists. split; [exact Hr|].
    destruct (get response "success"); [simpl; now rewrite Ht | reflexivity].
  - intros Hl. eexists. split; [exact Hr|].
    destruct (get response "success"); [simpl|reflexivity].
    destruct (getValueByPath response "data.list"); try discriminate; reflexivity.
  - reflexivity.
  - reflexivity.
  - reflexivity.
  - intros o' k ks Hk. simpl. rewrite Hk. apply get_keys_undefined.
  - intros v [|k ks] Hne Hv; [congruence|]. simpl. now rewrite Hv.
Qed.

Lemma missing_fields_defaulted_witness :
  exists r, createProTableRequest no_options
              (fun _ => Ok (VObj [("success", VBool true);
                                  ("data", VObj [("list", VStr "x")])]))
              [("current", VNum 1); ("pageSize", VNum 10)] = Ok r
            /\ total r = 0%Z.
Proof.
  apply (missing_fields_defaulted no_options
           (fun _ => Ok (VObj [("success", VBool true);
                               ("data", VObj [("list", VStr "x")])]))
           [("current", VNum 1); ("pageSize", VNum 10)]
           (VObj [("page", VNum 1); ("per", VNum 10)])
           (VObj [("success", VBool true); ("data", VObj [("list", VStr "x")])]));
    reflexivity.
Defined.

(** ** Claim C5 *)

(** C5 (counterexample): with [allowedExtensions = ['gif']], the file
    [photo.gif] reported as [image/gif] passes the extension gate, its
    extension is not in the MIME table, and it is rejected all the same. *)
Lemma mime_gate_rejects_unmapped_extension :
  extensionGate ["gif"] "photo.gif" = true
  /\ mimeTypeMap "gif" = None
  /\ validateFileType ["gif"] "photo.gif" "image/gif" = false.
Proof. repeat split. Qed.

(** C5 (amended): for a file past the extension gate, the MIME gate rejects
    it exactly when it carries a non-empty reported type that is not in the
    table entry of its extension, an extension without an entry counting as
    an empty set; a file without a reported type passes.  With the default
    allowed extensions every admitted extension has a table entry. *)
Theorem mime_gate_decision
  (allowedExtensions : list string) (fileName fileType ext : string)
  (Hext : fileExtension fileName = Some ext)
  (Hgate : extensionGate allowedExtensions fileName = true) :
  (validateFileType allowedExtensions fileName fileType = false <->
     fileType <> "" /\
     ~ In fileType (match mimeTypeMap ext with Some l => l | None => [] end))
  /\ (fileType = "" -> validateFileType allowedExtensions fileName fileType = true)
  /\ (allowedExtensions = defaultAllowedExtensions ->
      exists l, mimeTypeMap ext = Some l).
Proof.
  unfold extensionGate in Hgate. rewrite Hext in Hgate.
  unfold validateFileType. rewrite Hext, Hgate. simpl negb. cbv iota.
  split; [|split].
  - unfold mimeGate. destruct (String.eqb fileType "") eqn:Ee.
    + apply String.eqb_eq in Ee. split; [discriminate | tauto].
    + apply String.eqb_neq in Ee. split.
      * intros Hex. split; [exact Ee|]. intros Hin.
        assert (existsb (fun mime => String.eqb fileType mime)
                  (match mimeTypeMap ext with Some l => l | None => [] end) = true)
          as Ht.
        { apply existsb_exists. exists fileType. split; [exact Hin|].
          apply String.eqb_refl. }
        congruence.
      * intros [_ Hnin].
        destruct (existsb (fun mime => String.eqb fileType mime) _) eqn:Hex;
          [|reflexivity].
        apply existsb_exists in Hex. destruct Hex as (m & Hm & Heq).
        apply String.eqb_eq in Heq. subst m. contradiction.
  - intros ->. reflexivity.
  - intros ->. unfold defaultAllowedExtensions in Hgate. cbn [existsb] in Hgate.
    repeat (apply orb_prop in Hgate; destruct Hgate as [Hgate|Hgate]);
      try (apply String.eqb_eq in Hgate; subst ext; eexists; reflexivity);
      discriminate.
Qed.

Lemma mime_gate_decision_witness :
  (validateFileType defaultAllowedExtensions "Logo.PNG" "image/jpeg" = false <->
     "image/jpeg" <> "" /\
     ~ In "image/jpeg" (match mimeTypeMap "png" with Some l => l | None => [] end)).
Proof.
  apply (mime_gate_decision defaultAllowedExtensions "Logo.PNG" "image/jpeg" "png");
    reflexivity.
Defined.

(** ** Upload-list helpers *)

Lemma filter_done_url (l : list UploadFile) :
  filter (fun f => is_done f && url_truthy f) l
  = filter url_truthy (filter is_done l).
Proof.
  induction l as [|f l IH]; simpl; [reflexivity|].
  destruct (is_done f); simpl; [destruct (url_truthy f)|]; simpl; now rewrite IH.
Qed.

Lemma find_first_filter {A} (p : A -> bool) (l : list A) :
  find p l = hd_error (filter p l).
Proof.
  induction l as [|x l IH]; simpl; [reflexivity|]. now destruct (p x).
Qed.

Lemma filter_done_url_nil (l : list UploadFile) :
  (forall f, In f l -> is_done f = true -> url_truthy f = false) ->
  filter (fun f => is_done f && url_truthy f) l = [].
Proof.
  induction l as [|f l IH]; intros H; simpl; [reflexivity|].
  destruct (is_done f) eqn:Ed; simpl.
  - rewrite (H f (or_introl eq_refl) Ed). apply IH. intros g Hg. apply H. now right.
  - apply IH. intros g Hg. apply H. now right.
Qed.

Lemma no_done_no_done_url (l : list UploadFile) :
  existsb is_done l = false ->
  forall f, In f l -> is_done f = true -> url_truthy f = false.
Proof.
  intros H f Hin Hd. assert (existsb is_done l = true) by
    (apply existsb_exists; now exists f). congruence.
Qed.

Lemma multi_confirm_noop (p : Multi.Props) (st : Multi.State) :
  (forall f, In f (Multi.fileList st) -> is_done f = true -> url_truthy f = false) ->
  Multi.handleConfirm p st = (st, []).
Proof.
  intros H. unfold Multi.handleConfirm, doneUrls.
  now rewrite (filter_done_url_nil _ H).
Qed.

Lemma single_confirm_noop (cb : Callbacks) (st : Single.State) :
  (forall f, In f (Single.fileList st) -> is_done f = true -> url_truthy f = false) ->
  Single.handleConfirm cb st = (st, []).
Proof.
  intros H. unfold Single.handleConfirm.
  now rewrite find_first_filter, (filter_done_url_nil _ H).
Qed.

(** ** Claim C7 *)

(** C7 (counterexample): in single-image mode with an image already
    committed, confirming the one [done] entry keeps the old URL: the new
    URL is appended and cut off by [slice(0, maxCount)]. *)
Lemma confirm_single_keeps_committed_image :
  Multi.handleConfirm
    {| Multi.maxCount := 1;
       Multi.callbacks := {| hasOnChange := true; hasOnSuccess := true |} |}
    {| Multi.modalVisible := true;
       Multi.fileList := [{| uid := "rc-upload-1"; name := "new.png";
                             status := Some Done;
                             url := Some "https://cdn.example/new.png" |}];
       Multi.imageUrls := ["https://cdn.example/old.png"] |}
  = ({| Multi.modalVisible := false; Multi.fileList := [];
        Multi.imageUrls := ["https://cdn.example/old.png"] |},
     [OnChange (CStr "https://cdn.example/old.png");
      OnSuccess (CStr "https://cdn.example/old.png")])
  /\ "https://cdn.example/old.png" <> "https://cdn.example/new.png".
Proof. split; [reflexivity | discriminate]. Qed.

(** C7 (amended): in single-image mode, when exactly one [fileList] entry
    is [done], its [url] is set and non-empty, and no image is committed yet
    (the widget only offers the dialog then), Confirm commits that URL as a
    bare string, passes it to [onChange] / [onSuccess], clears [fileList] and
    closes the dialog.  When URLs are already committed, the multi-image
    variant keeps the first old URL (the new one is cut off by
    [slice(0, 1)]) and reports it, while the single-image variant commits
    the new URL whatever was committed before. *)
Theorem confirm_single_commits_url
  (cb : Callbacks) (fl : list UploadFile) (f : UploadFile) (u : string)
  (Hdone : filter is_done fl = [f]) (Hurl : url f = Some u) (Hne : u <> "") :
  (forall vis,
     Multi.handleConfirm {| Multi.maxCount := 1; Multi.callbacks := cb |}
       {| Multi.modalVisible := vis; Multi.fileList := fl; Multi.imageUrls := [] |}
     = ({| Multi.modalVisible := false; Multi.fileList := [];
           Multi.imageUrls := [u] |}, notify cb (CStr u)))
  /\ (forall vis u0 rest,
     Multi.handleConfirm {| Multi.maxCount := 1; Multi.callbacks := cb |}
       {| Multi.modalVisible := vis; Multi.fileList := fl;
          Multi.imageUrls := u0 :: rest |}
     = ({| Multi.modalVisible := false; Multi.fileList := [];
           Multi.imageUrls := [u0] |}, notify cb (CStr u0)))
  /\ (forall vis old,
     Single.handleConfirm cb
       {| Single.modalVisible := vis; Single.fileList := fl; Single.imageUrl := old |}
     = ({| Single.modalVisible := false; Single.fileList := [];
           Single.imageUrl := Some u |}, notify cb (CStr u))).
Proof.
  assert (Ht : url_truthy f = true).
  { unfold url_truthy. rewrite Hurl. apply negb_true_iff, String.eqb_neq, Hne. }
  assert (Hf : filter (fun f => is_done f && url_truthy f) fl = [f]).
  { rewrite filter_done_url, Hdone. simpl. now rewrite Ht. }
  split; [|split].
  - intros vis. unfold Multi.handleConfirm, doneUrls. simpl Multi.fileList.
    rewrite Hf. simpl. rewrite Hurl. reflexivity.
  - intros vis u0 rest. unfold Multi.handleConfirm, doneUrls. simpl Multi.fileList.
    rewrite Hf. simpl. rewrite Hurl. reflexivity.
  - intros vis old. unfold Single.handleConfirm. simpl Single.fileList.
    rewrite find_first_filter, Hf. simpl. rewrite Hurl.
    apply String.eqb_neq in Hne. now rewrite Hne.
Qed.

Lemma confirm_single_commits_url_witness :
  Multi.handleConfirm
    {| Multi.maxCount := 1;
       Multi.callbacks := {| hasOnChange := true; hasOnSuccess := false |} |}
    {| Multi.modalVisible := true;
       Multi.fileList := [{| uid := "rc-upload-2"; name := "a.png";
                             status := Some Error; url := None |};
                          {| uid := "rc-upload-3"; name := "b.png";
                             status := Some Done;
                             url := Some "https://cdn.example/b.png" |}];
       Multi.imageUrls := [] |}
  = ({| Multi.modalVisible := false; Multi.fileList := [];
        Multi.imageUrls := ["https://cdn.example/b.png"] |},
     notify {| hasOnChange := true; hasOnSuccess := false |}
       (CStr "https://cdn.example/b.png")).
Proof.
  apply (confirm_single_commits_url
           {| hasOnChange := true; hasOnSuccess := false |}
           [{| uid := "rc-upload-2"; name := "a.png";
               status := Some Error; url := None |};
            {| uid := "rc-upload-3"; name := "b.png";
               status := Some Done; url := Some "https://cdn.example/b.png" |}]
           {| uid := "rc-upload-3"; name := "b.png";
              status := Some Done; url := Some "https://cdn.example/b.png" |}
           "https://cdn.example/b.png"); [reflexivity | reflexivity | discriminate].
Defined.

(** ** Claim C8 *)

(** C8: when no [fileList] entry is [done], Confirm leaves the whole state
    (dialog, [fileList], committed value) as it is and calls no callback,
    in both variants. *)
Theorem confirm_without_done_is_noop
  (fl : list UploadFile) (Hnone : existsb is_done fl = false) :
  (forall p vis urls,
     Multi.handleConfirm p
       {| Multi.modalVisible := vis; Multi.fileList := fl; Multi.imageUrls := urls |}
     = ({| Multi.modalVisible := vis; Multi.fileList := fl;
           Multi.imageUrls := urls |}, []))
  /\ (forall cb vis img,
     Single.handleConfirm cb
       {| Single.modalVisible := vis; Single.fileList := fl; Single.imageUrl := img |}
     = ({| Single.modalVisible := vis; Single.fileList := fl;
           Single.imageUrl := img |}, [])).
Proof.
  split.
  - intros p vis urls. apply multi_confirm_noop. simpl.
    exact (no_done_no_done_url fl Hnone).
  - intros cb vis img. apply single_confirm_noop. simpl.
    exact (no_done_no_done_url fl Hnone).
Qed.

Lemma confirm_without_done_is_noop_witness :
  Multi.handleConfirm
    {| Multi.maxCount := 3;
       Multi.callbacks := {| hasOnChange := true; hasOnSuccess := true |} |}
    {| Multi.modalVisible := true;
       Multi.fileList := [{| uid := "rc-upload-4"; name := "c.png";
                             status := Some Uploading; url := None |}];
       Multi.imageUrls := ["https://cdn.example/a.png"] |}
  = ({| Multi.modalVisible := true;
        Multi.fileList := [{| uid := "rc-upload-4"; name := "c.png";
                              status := Some Uploading; url := None |}];
        Multi.imageUrls := ["https://cdn.example/a.png"] |}, []).
Proof.
  apply (confirm_without_done_is_noop
           [{| uid := "rc-upload-4"; name := "c.png";
               status := Some Uploading; url := None |}]).
  reflexivity.
Defined.

(** ** Claim C9 *)

(** C9: Cancel closes the dialog and empties [fileList], keeping the
    committed value, exactly when no entry is [uploading]; while an entry
    is [uploading] it changes nothing, however often it is pressed (both
    variants). *)
Theorem cancel_blocked_while_uploading :
  (forall st : Multi.State,
     (existsb is_uploading (Multi.fileList st) = false ->
        Multi.handleCancel st
        = ({| Multi.modalVisible := false; Multi.fileList := [];
              Multi.imageUrls := Multi.imageUrls st |}, []))
     /\ (existsb is_uploading (Multi.fileList st) = true ->
        Multi.handleCancel st = (st, [])
        /\ forall n, cancel_times_multi n st = st)
     /\ (Multi.fileList (fst (Multi.handleCancel st)) = [] <->
        existsb is_uploading (Multi.fileList st) = false))
  /\ (forall st : Single.State,
     (existsb is_uploading (Single.fileList st) = false ->
        Single.handleCancel st
        = ({| Single.modalVisible := false; Single.fileList := [];
              Single.imageUrl := Single.imageUrl st |}, []))
     /\ (existsb is_uploading (Single.fileList st) = true ->
        Single.handleCancel st = (st, [])
        /\ forall n, cancel_times_single n st = st)
     /\ (Single.fileList (fst (Single.handleCancel st)) = [] <->
        existsb is_uploading (Single.fileList st) = false)).
Proof.
  split; intros st; unfold Multi.handleCancel, Single.handleCancel,
    cancel_times_multi, cancel_times_single;
    destruct (existsb is_uploading _) eqn:E.
  - split; [discriminate|]. split.
    + intros _. split; [reflexivity|].
      induction n as [|n IH]; [reflexivity|].
      rewrite Nat.iter_succ, IH.
      unfold Multi.handleCancel, Single.handleCancel. rewrite E. reflexivity.
    + simpl. split; [|discriminate]. intros Hnil. rewrite Hnil in E. discriminate.
  - split; [reflexivity|]. split; [discriminate|]. simpl. tauto.
  - split; [discriminate|]. split.
    + intros _. split; [reflexivity|].
      induction n as [|n IH]; [reflexivity|].
      rewrite Nat.iter_succ, IH.
      unfold Multi.handleCancel, Single.handleCancel. rewrite E. reflexivity.
    + simpl. split; [|discriminate]. intros Hnil. rewrite Hnil in E. discriminate.
  - split; [reflexivity|]. split; [discriminate|]. simpl. tauto.
Qed.

(** ** Claim C10 *)

(** C10: Confirm takes its URLs only from entries that are [done] and carry
    a set, non-empty [url]: an entry without one contributes nothing, every
    committed new URL comes from such an entry, the multi-image variant
    commits [slice(0, maxCount)] of the old URLs followed by them, the
    single-image variant commits the URL of the first [done] entry with a
    non-empty URL (skipping [done] entries without one), and when no
    [done] entry has a URL Confirm is a no-op in both variants. *)
Theorem confirm_commits_only_done_with_url :
  (forall l1 f l2, url_truthy f = false ->
     doneUrls (l1 ++ f :: l2) = doneUrls (l1 ++ l2))
  /\ (forall fl u, In u (doneUrls fl) ->
     exists f, In f fl /\ is_done f = true /\ url f = Some u /\ u <> "")
  /\ (forall p st, doneUrls (Multi.fileList st) <> [] ->
     fst (Multi.handleConfirm p st)
     = {| Multi.modalVisible := false; Multi.fileList := [];
          Multi.imageUrls := slice0 (Multi.imageUrls st ++ doneUrls (Multi.fileList st))
                                    (Multi.maxCount p) |})
  /\ (forall p st,
     (forall f, In f (Multi.fileList st) -> is_done f = true -> url_truthy f = false) ->
     Multi.handleConfirm p st = (st, []))
  /\ (forall cb st l1 f l2 u,
     Single.fileList st = (l1 ++ f :: l2)%list ->
     (forall g, In g l1 -> is_done g = true -> url_truthy g = false) ->
     is_done f = true -> url f = Some u -> u <> "" ->
     Single.handleConfirm cb st
     = ({| Single.modalVisible := false; Single.fileList := [];
           Single.imageUrl := Some u |}, notify cb (CStr u)))
  /\ (forall cb st,
     (forall f, In f (Single.fileList st) -> is_done f = true -> url_truthy f = false) ->
     Single.handleConfirm cb st = (st, [])).
Proof.
  split; [|split; [|split; [|split; [|split]]]].
  - intros l1 f l2 Hf. unfold doneUrls.
    rewrite !filter_app. simpl. rewrite Hf, andb_false_r. reflexivity.
  - intros fl u Hin. unfold doneUrls in Hin.
    apply in_map_iff in Hin. destruct Hin as (f & Hu & Hf).
    apply filter_In in Hf. destruct Hf as [Hf Hdu].
    apply andb_prop in Hdu. destruct Hdu as [Hd Ht].
    exists f. unfold url_truthy in Ht. destruct (url f) as [u'|] eqn:Eu;
      [|discriminate]. subst u'.
    apply negb_true_iff, String.eqb_neq in Ht. auto.
  - intros p st Hne. unfold Multi.handleConfirm.
    destruct (doneUrls (Multi.fileList st)) as [|u us] eqn:E; [congruence|].
    simpl. destruct (Z.eqb (Multi.maxCount p) 1); reflexivity.
  - exact multi_confirm_noop.
  - intros cb st l1 f l2 u Hfl Hl1 Hd Hu Hne.
    unfold Single.handleConfirm. rewrite Hfl, find_first_filter, filter_app.
    rewrite (filter_done_url_nil l1 Hl1). simpl.
    assert (Ht : url_truthy f = true).
    { unfold url_truthy. rewrite Hu. apply negb_true_iff, String.eqb_neq, Hne. }
    rewrite Hd, Ht. simpl. rewrite Hu.
    apply String.eqb_neq in Hne. rewrite Hne. reflexivity.
  - exact single_confirm_noop.
Qed.

(* ------------------------------------------------------------------ *)
(** * Further properties of the adapter *)

(** X1: with custom target names [a] and [b] (an empty name falls back to
    [page] / [per]), the parameter transform puts [pageSize] under [b],
    [current] under [a] (when [a] and [b] differ), drops the [current] and
    [pageSize] keys unless they are target names, and keeps every other
    field. *)
Theorem custom_param_names
  (o : Options) (params : obj) (a b : string)
  (Hnone : transformParams o = None) (Hflag : cfg_transformParams o = true)
  (Ha : str_or (cfg_currentTo o) "page" = a)
  (Hb : str_or (cfg_pageSizeTo o) "per" = b) :
  exists ap, apiParams o params = Ok (VObj ap)
    /\ obj_get ap b = obj_get params "pageSize"
    /\ (a <> b -> obj_get ap a = obj_get params "current")
    /\ (forall k, k <> a -> k <> b -> k <> "current" -> k <> "pageSize" ->
          obj_get ap k = obj_get params k)
    /\ (forall k, k <> a -> k <> b -> (k = "current" \/ k = "pageSize") ->
          ~ In k (map fst ap)).
Proof.
  unfold apiParams. rewrite Hnone, Hflag, Ha, Hb.
  eexists. split; [reflexivity|]. split; [|split; [|split]].
  - apply obj_get_set_same.
  - intros Hab. rewrite obj_get_set_other by congruence. apply obj_get_set_same.
  - intros k H1 H2 H3 H4.
    rewrite !obj_get_set_other by congruence.
    rewrite !obj_get_del_other by congruence. reflexivity.
  - intros k H1 H2 Hk.
    rewrite keys_obj_set, keys_obj_set, keys_obj_del, keys_obj_del.
    intuition congruence.
Qed.

Lemma custom_param_names_witness :
  exists ap, apiParams doc_example_options
               [("current", VNum 3); ("pageSize", VNum 20); ("name", VStr "x")]
             = Ok (VObj ap)
    /\ obj_get ap "pageSize"
       = obj_get [("current", VNum 3); ("pageSize", VNum 20); ("name", VStr "x")]
                 "pageSize"
    /\ ("pageNum" <> "pageSize" ->
        obj_get ap "pageNum"
        = obj_get [("current", VNum 3); ("pageSize", VNum 20); ("name", VStr "x")]
                  "current")
    /\ (forall k, k <> "pageNum" -> k <> "pageSize" -> k <> "current" ->
          k <> "pageSize" ->
          obj_get ap k
          = obj_get [("current", VNum 3); ("pageSize", VNum 20);
                     ("name", VStr "x")] k)
    /\ (forall k, k <> "pageNum" -> k <> "pageSize" ->
          (k = "current" \/ k = "pageSize") -> ~ In k (map fst ap)).
Proof.
  apply (custom_param_names doc_example_options
           [("current", VNum 3); ("pageSize", VNum 20); ("name", VStr "x")]
           "pageNum" "pageSize"); reflexivity.
Defined.

(** X2: a well-formed envelope [{success, data: {list, total}}] with an
    array [list] and a number [total] is adapted to its list, its total
    (whatever its sign, [0] included) and [success ?? true]. *)
Theorem well_formed_envelope_adapted
  (o : Options) (apiFunction : ApiFunction) (params : obj) (ap : val)
  (env d : obj) (l : list val) (n : Z)
  (Hresp : transformResponse o = None) (Hpaths : responseTransform o = None)
  (Hparams : apiParams o params = Ok ap)
  (Hok : apiFunction ap = Ok (VObj env))
  (Hdata : obj_get env "data" = VObj d)
  (Hlist : obj_get d "list" = VArr l) (Htotal : obj_get d "total" = VNum n) :
  createProTableRequest o apiFunction params
  = Ok {| data := l; success := js_nullish (obj_get env "success") (VBool true);
          total := n |}.
Proof.
  rewrite (createProTableRequest_resolved o apiFunction params ap (VObj env))
    by assumption.
  unfold getValueByPath. simpl. rewrite Hdata. simpl. rewrite Hlist, Htotal.
  reflexivity.
Qed.

Lemma well_formed_envelope_adapted_witness :
  createProTableRequest no_options
    (fun _ => Ok (VObj [("success", VBool true);
                        ("data", VObj [("list", VArr [VObj [("id", VNum 1)]]);
                                       ("total", VNum 1)])]))
    [("current", VNum 1); ("pageSize", VNum 15)]
  = Ok {| data := [VObj [("id", VNum 1)]];
          success := js_nullish (VBool true) (VBool true); total := 1 |}.
Proof.
  apply (well_formed_envelope_adapted no_options
           (fun _ => Ok (VObj [("success", VBool true);
                               ("data", VObj [("list", VArr [VObj [("id", VNum 1)]]);
                                              ("total", VNum 1)])]))
           [("current", VNum 1); ("pageSize", VNum 15)]
           (VObj [("page", VNum 1); ("per", VNum 15)])
           [("success", VBool true);
            ("data", VObj [("list", VArr [VObj [("id", VNum 1)]]);
                           ("total", VNum 1)])]
           [("list", VArr [VObj [("id", VNum 1)]]); ("total", VNum 1)]);
    reflexivity.
Defined.

(** X4: a custom [transformResponse] decides the result: what it returns is
    passed on unchanged, and if it throws the request function resolves to
    the error response. *)
Theorem custom_transformResponse_result
  (o : Options) (apiFunction : ApiFunction) (params : obj) (ap response : val)
  (f : val -> outcome ProTableResponse)
  (Hf : transformResponse o = Some f)
  (Hparams : apiParams o params = Ok ap)
  (Hok : apiFunction ap = Ok response) :
  createProTableRequest o apiFunction params
  = match f response with Ok r => Ok r | Throw _ => Ok errorResponse end.
Proof.
  unfold createProTableRequest, tryBody. rewrite Hparams, Hok, Hf.
  now destruct (f response).
Qed.

Lemma custom_transformResponse_result_witness :
  createProTableRequest
    {| paramTransform := None; responseTransform := None;
       transformParams := None;
       transformResponse := Some (fun r => match r with
                                           | VObj _ => Throw (VStr "bad rows")
                                           | _ => Ok errorResponse
                                           end) |}
    (fun _ => Ok (VObj [])) [("current", VNum 1); ("pageSize", VNum 10)]
  = Ok {| data := []; success := VBool false; total := 0%Z |}.
Proof.
  apply (custom_transformResponse_result
           {| paramTransform := None; responseTransform := None;
              transformParams := None;
              transformResponse := Some (fun r => match r with
                                                  | VObj _ => Throw (VStr "bad rows")
                                                  | _ => Ok errorResponse
                                                  end) |}
           (fun _ => Ok (VObj [])) [("current", VNum 1); ("pageSize", VNum 10)]
           (VObj [("page", VNum 1); ("per", VNum 10)]) (VObj [])
           (fun r => match r with
                     | VObj _ => Throw (VStr "bad rows")
                     | _ => Ok errorResponse
                     end)); reflexivity.
Defined.

(** X5: when a custom [transformParams] throws, the backend is not reached:
    whatever the API function, the request function resolves to the error
    response. *)
Theorem throwing_transformParams_absorbed
  (o : Options) (params : obj) (f : obj -> outcome val) (e : val)
  (Hf : transformParams o = Some f) (Hthrow : f params = Throw e) :
  forall apiFunction : ApiFunction,
    createProTableRequest o apiFunction params = Ok errorResponse.
Proof.
  intros apiFunction. unfold createProTableRequest, tryBody, apiParams.
  rewrite Hf, Hthrow. reflexivity.
Qed.

Lemma throwing_transformParams_absorbed_witness :
  createProTableRequest
    {| paramTransform := None; responseTransform := None;
       transformParams := Some (fun _ => Throw (VStr "bad params"));
       transformResponse := None |}
    (fun _ => Ok (VObj [])) [("current", VNum 1)]
  = Ok errorResponse.
Proof.
  apply (throwing_transformParams_absorbed
           {| paramTransform := None; responseTransform := None;
              transformParams := Some (fun _ => Throw (VStr "bad params"));
              transformResponse := None |}
           [("current", VNum 1)] (fun _ => Throw (VStr "bad params"))
           (VStr "bad params")); reflexivity.
Defined.

(** ** Dotted paths *)

Lemma string_app_assoc (a b c : string) : (a ++ b) ++ c = a ++ (b ++ c).
Proof. induction a as [|x a IH]; simpl; [reflexivity|]. now rewrite IH. Qed.

Lemma string_app_nil_r (a : string) : a ++ "" = a.
Proof. induction a as [|x a IH]; simpl; [reflexivity|]. now rewrite IH. Qed.

Lemma split_dot_aux_app (k s cur : string) :
  no_dot k = true -> split_dot_aux (k ++ s) cur = split_dot_aux s (cur ++ k).
Proof.
  revert cur. induction k as [|c k IH]; intros cur Hk; simpl.
  - now rewrite string_app_nil_r.
  - unfold no_dot in Hk. simpl in Hk. apply andb_prop in Hk as [Hc Hk].
    apply negb_true_iff in Hc. rewrite Hc. rewrite IH by exact Hk.
    now rewrite string_app_assoc.
Qed.

Lemma split_dot_concat (k : string) (ks : list string) (cur : string) :
  forallb no_dot (k :: ks) = true ->
  split_dot_aux (String.concat "." (k :: ks)) cur = (cur ++ k) :: ks.
Proof.
  revert k cur. induction ks as [|k' ks IH]; intros k cur Hall;
    simpl in Hall; apply andb_prop in Hall as [Hk Hall].
  - simpl. rewrite <- (string_app_nil_r k) at 1.
    rewrite split_dot_aux_app by exact Hk. reflexivity.
  - change (String.concat "." (k :: k' :: ks)) with
      (k ++ String "." (String.concat "." (k' :: ks))).
    rewrite split_dot_aux_app by exact Hk.
    change (split_dot_aux (String "." (String.concat "." (k' :: ks))) (cur ++ k))
      with ((cur ++ k) :: split_dot_aux (String.concat "." (k' :: ks)) "").
    rewrite (IH k' "" Hall). reflexivity.
Qed.

Lemma getValueByPath_nest (ks : list string) (v : val)
  (Hne : ks <> []) (Hall : forallb no_dot ks = true) :
  getValueByPath (nest ks v) (String.concat "." ks) = v.
Proof.
  unfold getValueByPath, split_dot.
  destruct ks as [|k ks']; [congruence|].
  rewrite (split_dot_concat k ks' "" Hall). simpl.
  clear Hne Hall. revert k. induction ks' as [|k' ks' IH]; intros k.
  - simpl. now rewrite String.eqb_refl.
  - simpl. rewrite String.eqb_refl. apply IH.
Qed.

(** X6: [getValueByPath] reads back what sits under a dotted path: for
    non-empty path segments without dots, joining them with [.] and
    resolving the path in the nested object [{k1: {k2: ... v}}] gives
    [v]. *)
Theorem getValueByPath_nested_roundtrip (ks : list string) (v : val)
  (Hne : ks <> []) (Hall : forallb no_dot ks = true) :
  getValueByPath (nest ks v) (String.concat "." ks) = v.
Proof. exact (getValueByPath_nest ks v Hne Hall). Qed.

Lemma getValueByPath_nested_roundtrip_witness :
  getValueByPath (nest ["data"; "items"] (VArr [VNum 7]))
    (String.concat "." ["data"; "items"]) = VArr [VNum 7].
Proof.
  apply getValueByPath_nested_roundtrip; [discriminate | reflexivity].
Defined.



(* ------------------------------------------------------------------ *)
(** * Further properties of the upload widget *)

Lemma filter_index_aux (l : list string) (k : nat) (i : Z) :
  map snd (filter (fun '(j, _) => negb (Z.eqb (Z.of_nat j) i))
                  (combine (seq k (length l)) l))
  = if ((Z.of_nat k <=? i) && (i <? Z.of_nat (k + length l)))%Z
    then (firstn (Z.to_nat i - k) l ++ skipn (S (Z.to_nat i - k)) l)%list
    else l.
Proof.
  revert k. induction l as [|a l IH]; intros k.
  - simpl. destruct (_ && _); [|reflexivity].
    destruct (Z.to_nat i - k)%nat; reflexivity.
  - cbn [length seq combine filter].
    destruct (Z.eqb_spec (Z.of_nat k) i) as [Heq|Hne].
    + simpl negb. cbv iota. rewrite IH. subst i.
      replace ((Z.of_nat (S k) <=? Z.of_nat k)%Z) with false
        by (symmetry; apply Z.leb_gt; lia).
      replace ((Z.of_nat k <=? Z.of_nat k)%Z
               && (Z.of_nat k <? Z.of_nat (k + S (length l)))%Z) with true
        by (symmetry; apply andb_true_iff; split;
            [apply Z.leb_le | apply Z.ltb_lt]; lia).
      rewrite Nat2Z.id, Nat.sub_diag. reflexivity.
    + simpl negb. cbv iota. cbn [map snd]. rewrite IH.
      destruct (Z.leb_spec (Z.of_nat (S k)) i),
               (Z.ltb_spec i (Z.of_nat (S k + length l))),
               (Z.leb_spec (Z.of_nat k) i),
               (Z.ltb_spec i (Z.of_nat (k + S (length l))));
        simpl andb; cbv iota; try lia; try reflexivity.
      replace (Z.to_nat i - k)%nat with (S (Z.to_nat i - S k)) by lia.
      reflexivity.
Qed.

(** X7: in multi-image mode ([maxCount] other than 1), removing the image
    at a position [i] inside the committed list takes out exactly that URL,
    keeps the others in order, and reports the new list to the callbacks;
    a position outside the list leaves the URLs as they are. *)
Theorem remove_at_index
  (p : Multi.Props) (st : Multi.State) (i : Z)
  (Hmc : Multi.maxCount p <> 1%Z)
  (Hin : (0 <= i < Z.of_nat (length (Multi.imageUrls st)))%Z) :
  let l := Multi.imageUrls st in
  let r := (firstn (Z.to_nat i) l ++ skipn (S (Z.to_nat i)) l)%list in
  Multi.handleRemove p (Some i) st
  = ({| Multi.modalVisible := Multi.modalVisible st;
        Multi.fileList := Multi.fileList st; Multi.imageUrls := r |},
     notify (Multi.callbacks p) (CArr r))
  /\ length r = (length l - 1)%nat
  /\ (forall j, (j < 0 \/ Z.of_nat (length l) <= j)%Z ->
        Multi.imageUrls (fst (Multi.handleRemove p (Some j) st)) = l).
Proof.
  intros l r. unfold Multi.handleRemove.
  apply Z.eqb_neq in Hmc. rewrite Hmc.
  split; [|split].
  - rewrite filter_index_aux. simpl Z.of_nat.
    replace ((0 <=? i)%Z && (i <? Z.of_nat (length (Multi.imageUrls st)))%Z)
      with true by (symmetry; apply andb_true_iff; split;
                    [apply Z.leb_le | apply Z.ltb_lt]; lia).
    rewrite Nat.sub_0_r. reflexivity.
  - unfold r, l. rewrite length_app, length_firstn, length_skipn. lia.
  - intros j Hj. unfold l in *. simpl. rewrite filter_index_aux. simpl Z.of_nat.
    replace ((0 <=? j)%Z && (j <? Z.of_nat (length (Multi.imageUrls st)))%Z)
      with false; [reflexivity|].
    symmetry. apply andb_false_iff. simpl.
    destruct Hj; [left; apply Z.leb_gt | right; apply Z.ltb_ge]; lia.
Qed.

Lemma remove_at_index_witness :
  Multi.handleRemove
    {| Multi.maxCount := 3;
       Multi.callbacks := {| hasOnChange := true; hasOnSuccess := false |} |}
    (Some 1%Z)
    {| Multi.modalVisible := false; Multi.fileList := [];
       Multi.imageUrls := ["u0"; "u1"; "u2"] |}
  = ({| Multi.modalVisible := false; Multi.fileList := [];
        Multi.imageUrls := ["u0"; "u2"] |},
     notify {| hasOnChange := true; hasOnSuccess := false |} (CArr ["u0"; "u2"])).
Proof.
  destruct (remove_at_index
           {| Multi.maxCount := 3;
              Multi.callbacks := {| hasOnChange := true; hasOnSuccess := false |} |}
           {| Multi.modalVisible := false; Multi.fileList := [];
              Multi.imageUrls := ["u0"; "u1"; "u2"] |} 1%Z
           ltac:(discriminate) ltac:(simpl; lia)) as [H _].
  exact H.
Defined.

Lemma filter_filter_length {A} (q r : A -> bool) (l : list A) :
  (length (filter q (filter r l)) <= length (filter q l))%nat.
Proof.
  induction l as [|a l IH]; [simpl; lia|].
  simpl. destruct (r a); simpl; destruct (q a); simpl; lia.
Qed.

Lemma filter_filter_idem {A} (q : A -> bool) (l : list A) :
  filter q (filter q l) = filter q l.
Proof.
  induction l as [|a l IH]; [reflexivity|].
  simpl. destruct (q a) eqn:E; simpl; [rewrite E, IH; reflexivity | exact IH].
Qed.

Lemma isValidSize_Z (m size : Z) :
  isValidSize (inject_Z m) size = (size <? m * 1048576)%Z.
Proof.
  unfold isValidSize, Qle_bool. simpl.
  rewrite Z.mul_1_r, Z.mul_1_r.
  destruct (Z.leb_spec (m * 1048576) size), (Z.ltb_spec size (m * 1048576));
    simpl; reflexivity || lia.
Qed.

(** X8: with a whole number [m] of megabytes as [maxSize], the size gate of
    [beforeUpload] admits exactly the files below [m * 1048576] bytes. *)
Theorem size_gate_in_bytes (m size : Z) :
  isValidSize (inject_Z m) size = (size <? m * 1048576)%Z.
Proof. apply isValidSize_Z. Qed.

Lemma isValidSize_true (maxSize : Q) (size : Z) :
  isValidSize maxSize size = true -> (inject_Z size < maxSize * inject_Z 1048576)%Q.
Proof.
  destruct maxSize as [n d]. unfold isValidSize, Qle_bool, Qlt. simpl.
  intros H. apply negb_true_iff, Z.leb_gt in H. nia.
Qed.

(** X9: a file [beforeUpload] admits leaves the widget within [maxCount]
    (committed URLs, uploading or finished entries and the whole batch
    together), is below [maxSize] megabytes (any rational [maxSize]), and
    has a lower-cased extension that is one of [allowedExtensions]
    lower-cased. *)
Theorem beforeUpload_admits_within_limits
  (p : Multi.Props) (maxSize : Q) (exts : list string) (st : Multi.State)
  (file : RawFile) (batch : list RawFile)
  (H : beforeUpload p maxSize exts st file batch = true) :
  (Z.of_nat (length (Multi.imageUrls st)) + Z.of_nat (activeCount (Multi.fileList st))
     + Z.of_nat (length batch) <= Multi.maxCount p)%Z
  /\ (inject_Z (file_size file) < maxSize * inject_Z 1048576)%Q
  /\ exists ext, fileExtension (file_name file) = Some ext
              /\ In ext (map toLowerCase exts).
Proof.
  unfold beforeUpload in H. unfold activeCount.
  destruct (Z.ltb_spec (Multi.maxCount p)
              (Z.of_nat (length (Multi.imageUrls st))
               + Z.of_nat (length (filter (fun f => is_uploading f || is_done f)
                                          (Multi.fileList st)))
               + Z.of_nat (length batch))) as [_|Hc]; [discriminate|].
  destruct (isValidSize maxSize (file_size file)) eqn:Hs; [|discriminate].
  split; [lia|split; [apply isValidSize_true; exact Hs|]].
  unfold validateFileType in H.
  destruct (fileExtension (file_name file)) as [ext|]; [|discriminate].
  destruct (existsb (fun e => String.eqb (toLowerCase e) ext) exts) eqn:E;
    [|discriminate].
  exists ext. split; [reflexivity|].
  apply existsb_exists in E. destruct E as [e [He Heq]].
  apply String.eqb_eq in Heq. subst ext. apply in_map. exact He.
Qed.

Lemma beforeUpload_admits_within_limits_witness :
  beforeUpload {| Multi.maxCount := 3;
                  Multi.callbacks := {| hasOnChange := true; hasOnSuccess := false |} |}
    (1 # 2) defaultAllowedExtensions
    {| Multi.modalVisible := true; Multi.fileList := [];
       Multi.imageUrls := ["u0"] |}
    {| file_name := "a.PNG"; file_type := "image/png"; file_size := 1000 |}
    [{| file_name := "a.PNG"; file_type := "image/png"; file_size := 1000 |}]
  = true
  /\ (1 + 0 + 1 <= 3)%Z /\ (inject_Z 1000 < (1 # 2) * inject_Z 1048576)%Q.
Proof.
  assert (H : beforeUpload {| Multi.maxCount := 3;
                  Multi.callbacks := {| hasOnChange := true; hasOnSuccess := false |} |}
    (1 # 2) defaultAllowedExtensions
    {| Multi.modalVisible := true; Multi.fileList := [];
       Multi.imageUrls := ["u0"] |}
    {| file_name := "a.PNG"; file_type := "image/png"; file_size := 1000 |}
    [{| file_name := "a.PNG"; file_type := "image/png"; file_size := 1000 |}]
    = true) by (vm_compute; reflexivity).
  destruct (beforeUpload_admits_within_limits _ _ _ _ _ _ H) as [H1 [H2 _]].
  split; [exact H|split; [exact H1|exact H2]].
Defined.

(** X10: [beforeUpload] depends on [fileList] only through the number of
    entries that are uploading or done: two lists with as many such
    entries give the same decision, so failed or removed entries, wherever
    they sit in the list, never change it. *)
Theorem inactive_entries_ignored
  (p : Multi.Props) (maxSize : Q) (exts : list string) (vis : bool)
  (urls : list string) (file : RawFile) (batch : list RawFile) :
  (forall fl1 fl2, activeCount fl1 = activeCount fl2 ->
     beforeUpload p maxSize exts
       {| Multi.modalVisible := vis; Multi.fileList := fl1; Multi.imageUrls := urls |}
       file batch
     = beforeUpload p maxSize exts
       {| Multi.modalVisible := vis; Multi.fileList := fl2; Multi.imageUrls := urls |}
       file batch)
  /\ (forall fl,
     beforeUpload p maxSize exts
       {| Multi.modalVisible := vis; Multi.fileList := fl; Multi.imageUrls := urls |}
       file batch
     = beforeUpload p maxSize exts
       {| Multi.modalVisible := vis;
          Multi.fileList := filter (fun f => is_uploading f || is_done f) fl;
          Multi.imageUrls := urls |}
       file batch).
Proof.
  assert (Hcount : forall fl1 fl2, activeCount fl1 = activeCount fl2 ->
     beforeUpload p maxSize exts
       {| Multi.modalVisible := vis; Multi.fileList := fl1; Multi.imageUrls := urls |}
       file batch
     = beforeUpload p maxSize exts
       {| Multi.modalVisible := vis; Multi.fileList := fl2; Multi.imageUrls := urls |}
       file batch).
  { intros fl1 fl2 Hc. unfold activeCount in Hc. unfold beforeUpload.
    cbn [Multi.fileList Multi.imageUrls]. rewrite Hc. reflexivity. }
  split; [exact Hcount|].
  intros fl. apply Hcount. unfold activeCount. rewrite filter_filter_idem.
  reflexivity.
Qed.

(** X11: [onRemove] drops exactly the entries with the removed file's
    [uid] and keeps the others; removing an entry never makes
    [beforeUpload] reject a file it admitted before. *)
Theorem onRemove_frees_capacity
  (p : Multi.Props) (maxSize : Q) (exts : list string) (st : Multi.State)
  (removed : UploadFile) (file : RawFile) (batch : list RawFile) :
  (forall g, In g (onRemove removed (Multi.fileList st))
             <-> In g (Multi.fileList st) /\ uid g <> uid removed)
  /\ (beforeUpload p maxSize exts st file batch = true ->
      beforeUpload p maxSize exts
        {| Multi.modalVisible := Multi.modalVisible st;
           Multi.fileList := onRemove removed (Multi.fileList st);
           Multi.imageUrls := Multi.imageUrls st |} file batch = true).
Proof.
  split.
  - intros g. unfold onRemove. rewrite filter_In.
    rewrite negb_true_iff, String.eqb_neq. reflexivity.
  - unfold beforeUpload. cbn [Multi.fileList Multi.imageUrls].
    assert (Hle : (length (filter (fun f => is_uploading f || is_done f)
                     (onRemove removed (Multi.fileList st)))
                   <= length (filter (fun f => is_uploading f || is_done f)
                     (Multi.fileList st)))%nat).
    { unfold onRemove. apply filter_filter_length. }
    destruct (Z.ltb_spec (Multi.maxCount p)
               (Z.of_nat (length (Multi.imageUrls st))
                + Z.of_nat (length (filter (fun f => is_uploading f || is_done f)
                                           (Multi.fileList st)))
                + Z.of_nat (length batch))); [discriminate|].
    intros Hadm.
    destruct (Z.ltb_spec (Multi.maxCount p)
               (Z.of_nat (length (Multi.imageUrls st))
                + Z.of_nat (length (filter (fun f => is_uploading f || is_done f)
                                           (onRemove removed (Multi.fileList st))))
                + Z.of_nat (length batch))); [lia|exact Hadm].
Qed.

Lemma lower_ascii_idem (c : ascii) : lower_ascii (lower_ascii c) = lower_ascii c.
Proof. destruct c as [[] [] [] [] [] [] [] []]; reflexivity. Qed.

Lemma lower_ascii_dot (c : ascii) : Ascii.eqb (lower_ascii c) "." = Ascii.eqb c ".".
Proof. destruct c as [[] [] [] [] [] [] [] []]; reflexivity. Qed.

Lemma toLowerCase_idem (s : string) : toLowerCase (toLowerCase s) = toLowerCase s.
Proof.
  induction s as [|c s IH]; [reflexivity|]. simpl. rewrite lower_ascii_idem, IH.
  reflexivity.
Qed.

Lemma toLowerCase_app (a b : string) :
  toLowerCase (a ++ b) = toLowerCase a ++ toLowerCase b.
Proof. induction a as [|c a IH]; [reflexivity|]. simpl. rewrite IH. reflexivity. Qed.

Lemma toLowerCase_length (s : string) : String.length (toLowerCase s) = String.length s.
Proof. induction s as [|c s IH]; [reflexivity|]. simpl. rewrite IH. reflexivity. Qed.

Lemma lastIndexOfDot_lower (s : string) :
  lastIndexOfDot (toLowerCase s) = lastIndexOfDot s.
Proof.
  induction s as [|c s IH]; [reflexivity|]. simpl. rewrite IH, lower_ascii_dot.
  reflexivity.
Qed.

Lemma lastIndexOfDot_app (a b : string) :
  lastIndexOfDot (a ++ b)
  = match lastIndexOfDot b with
    | Some i => Some (String.length a + i)%nat
    | None => lastIndexOfDot a
    end.
Proof.
  induction a as [|c a IH].
  - simpl. destruct (lastIndexOfDot b); reflexivity.
  - simpl. rewrite IH. destruct (lastIndexOfDot b); reflexivity.
Qed.

Lemma substring_app_length (a b : string) (n m : nat) :
  substring (String.length a + n) m (a ++ b) = substring n m b.
Proof. induction a as [|c a IH]; [reflexivity|]. simpl. exact IH. Qed.

Lemma substring_whole (s : string) : substring 0 (String.length s) s = s.
Proof. induction s as [|c s IH]; [reflexivity|]. simpl. rewrite IH. reflexivity. Qed.

Lemma string_length_app (a b : string) :
  String.length (a ++ b) = (String.length a + String.length b)%nat.
Proof. induction a as [|c a IH]; [reflexivity|]. simpl. rewrite IH. reflexivity. Qed.

Lemma existsb_map_lower (exts : list string) (x : string) :
  existsb (fun e => String.eqb (toLowerCase e) x) (map toLowerCase exts)
  = existsb (fun e => String.eqb (toLowerCase e) x) exts.
Proof.
  induction exts as [|e exts IH]; [reflexivity|]. simpl.
  rewrite toLowerCase_idem, IH. reflexivity.
Qed.

(** X12: [validateFileType] ignores the letter case of the file name and
    of the configured extensions: lower-casing either one never changes
    the decision. *)
Theorem validateFileType_case_insensitive
  (exts : list string) (fileName fileType : string) :
  validateFileType exts (toLowerCase fileName) fileType
    = validateFileType exts fileName fileType
  /\ validateFileType (map toLowerCase exts) fileName fileType
    = validateFileType exts fileName fileType.
Proof.
  split.
  - unfold validateFileType, fileExtension. rewrite toLowerCase_idem. reflexivity.
  - unfold validateFileType.
    destruct (fileExtension fileName) as [ext|]; [|reflexivity].
    rewrite existsb_map_lower. reflexivity.
Qed.

(** X13: the extension [validateFileType] checks is the text after the
    last dot of the name, lower-cased; a name without a dot has none and
    is rejected whatever the allowed extensions and the MIME type. *)
Theorem fileExtension_after_last_dot (base ext : string)
  (Hext : lastIndexOfDot ext = None) :
  fileExtension (base ++ String "." ext) = Some (toLowerCase ext)
  /\ (forall exts fileType,
        validateFileType exts ext fileType = false).
Proof.
  split.
  - unfold fileExtension. rewrite toLowerCase_app, lastIndexOfDot_app.
    cbn [toLowerCase lastIndexOfDot]. rewrite lastIndexOfDot_lower, Hext.
    change (lower_ascii "."%char) with "."%char. cbn [Ascii.eqb Bool.eqb].
    f_equal. unfold substringFrom.
    rewrite toLowerCase_length, string_length_app. cbn [String.length].
    rewrite toLowerCase_length.
    replace (String.length base + S (String.length ext)
             - S (String.length base + 0))%nat with (String.length ext) by lia.
    replace (S (String.length base + 0)) with
      (String.length (toLowerCase base) + 1)%nat
      by (rewrite toLowerCase_length; lia).
    rewrite substring_app_length. cbn [substring].
    replace (String.length base + S (String.length (toLowerCase ext))
             - (String.length (toLowerCase base) + 1))%nat
      with (String.length (toLowerCase ext))
      by (rewrite !toLowerCase_length; lia).
    apply substring_whole.
  - intros exts fileType. unfold validateFileType, fileExtension.
    rewrite lastIndexOfDot_lower, Hext. reflexivity.
Qed.

Lemma fileExtension_after_last_dot_witness :
  fileExtension ("photo.v2" ++ String "." "JPG") = Some "jpg".
Proof.
  destruct (fileExtension_after_last_dot "photo.v2" "JPG" eq_refl) as [H _].
  exact H.
Defined.

Lemma opt_str_or_nonempty (s : option string) (d : string) :
  d <> "" -> opt_str_or s d <> "".
Proof.
  intros Hd. unfold opt_str_or. destruct s as [m|]; [|exact Hd].
  destruct (String.eqb_spec m ""); assumption.
Qed.

Lemma uploadCatch_message (m : string) :
  m <> "" -> uploadCatch (VObj [("message", VStr m)]) = UploadFailed (VStr m).
Proof.
  intros Hm. unfold uploadCatch, opt_get, get. cbn [obj_get].
  replace (String.eqb "errorMessage" "message") with false by reflexivity.
  rewrite String.eqb_refl. unfold js_or at 2.
  replace (truthy (VStr m)) with true.
  - reflexivity.
  - destruct m; [contradiction|reflexivity].
Qed.

(** X14: an upload succeeds exactly when [uploadApi] resolves with
    [success] true and a non-empty [data]; the file's URL is then
    [API_URL] followed by [data].  A rejected call never succeeds. *)
Theorem upload_success_iff (api : string) (r : UploadResponse) (u : string) :
  (handleUpload api (Ok r) = UploadSucceeded u
   <-> exists d, resp_success r = Some true /\ resp_data r = Some d
                 /\ d <> "" /\ u = api ++ d)
  /\ (forall e, handleUpload api (Throw e) <> UploadSucceeded u).
Proof.
  split.
  - unfold handleUpload. split.
    + destruct (resp_success r) as [[]|], (resp_data r) as [d|];
        try (unfold uploadCatch; discriminate).
      destruct (String.eqb_spec d "") as [Hd|Hd]; simpl;
        [unfold uploadCatch; discriminate|].
      intros H. injection H as <-. exists d. repeat split; auto.
    + intros [d [Hs [Hd [Hne ->]]]]. rewrite Hs, Hd.
      apply String.eqb_neq in Hne. rewrite Hne. reflexivity.
  - intros e. unfold handleUpload, uploadCatch. discriminate.
Qed.

(** X15: when [uploadApi] resolves without a usable result, the error
    raised inside the [try] reaches the [catch] block, and the failure
    message is the response's [errorMessage] when it is a non-empty
    string, otherwise ["上传失败"] (never the generic fallback of the
    [catch] block, unless the backend sent that very text). *)
Theorem upload_resolved_failure_message (api : string) (r : UploadResponse)
  (Hfail : forall d, resp_success r = Some true -> resp_data r = Some d -> d = "") :
  handleUpload api (Ok r)
    = UploadFailed (VStr (opt_str_or (resp_errorMessage r) "上传失败")).
Proof.
  unfold handleUpload.
  assert (Hnz : opt_str_or (resp_errorMessage r) "上传失败" <> "")
    by (apply opt_str_or_nonempty; discriminate).
  destruct (resp_success r) as [[]|] eqn:Hs, (resp_data r) as [d|] eqn:Hd;
    try (apply uploadCatch_message; exact Hnz).
  rewrite (Hfail d eq_refl eq_refl). simpl.
  apply uploadCatch_message; exact Hnz.
Qed.

Lemma upload_resolved_failure_message_witness :
  handleUpload "/api" (Ok {| resp_success := Some false; resp_data := None;
                             resp_errorMessage := Some "文件过大" |})
  = UploadFailed (VStr "文件过大").
Proof.
  exact (upload_resolved_failure_message "/api"
           {| resp_success := Some false; resp_data := None;
              resp_errorMessage := Some "文件过大" |}
           (fun d Hs _ => match Hs with eq_refl => I end)).
Defined.

(** X16: for a rejected [uploadApi] call, an [errorMessage] on the error
    object wins over its [message]; an error with only a non-empty
    [message] (a plain [Error]) reports that message; and a rejection
    with [undefined] or [null], or with neither property set, reports
    ["上传失败，请重试"]. *)
Theorem upload_rejection_message (api : string) :
  (forall o m, obj_get o "errorMessage" = VStr m -> m <> "" ->
     handleUpload api (Throw (VObj o)) = UploadFailed (VStr m))
  /\ (forall o m, obj_get o "errorMessage" = VUndef ->
       obj_get o "message" = VStr m -> m <> "" ->
       handleUpload api (Throw (VObj o)) = UploadFailed (VStr m))
  /\ (forall e, (loose_null e = true \/
                 exists o, e = VObj o /\ obj_get o "errorMessage" = VUndef
                           /\ obj_get o "message" = VUndef) ->
       handleUpload api (Throw e) = UploadFailed (VStr "上传失败，请重试")).
Proof.
  assert (Htr : forall m, m <> "" -> truthy (VStr m) = true)
    by (intros [|c m] H; [contradiction|reflexivity]).
  split; [|split].
  - intros o m Hg Hm. simpl. unfold uploadCatch, opt_get, get.
    rewrite Hg. unfold js_or at 1. rewrite (Htr m Hm). reflexivity.
  - intros o m Hg Hg' Hm. simpl. unfold uploadCatch, opt_get, get.
    rewrite Hg, Hg'. unfold js_or at 2. rewrite (Htr m Hm). reflexivity.
  - intros e [He | [o [-> [Hg Hg']]]].
    + destruct e; try discriminate; reflexivity.
    + simpl. unfold uploadCatch, opt_get, get. rewrite Hg, Hg'. reflexivity.
Qed.

(** X17: for freshly uploaded entries (no [url] of their own yet),
    [onChange] keeps every entry's [uid] and [status], and the URLs that
    [handleConfirm] later collects are exactly the non-empty response URLs
    of the entries that are done, in list order. *)
Theorem onChange_then_doneUrls (info : list (UploadFile * option string))
  (Hfresh : Forall (fun p => url (fst p) = None) info) :
  doneUrls (onChangeFileList info)
    = flat_map (fun p => if is_done (fst p)
                         then match snd p with
                              | Some u => if String.eqb u "" then [] else [u]
                              | None => []
                              end
                         else []) info
  /\ map uid (onChangeFileList info) = map (fun p => uid (fst p)) info
  /\ map status (onChangeFileList info) = map (fun p => status (fst p)) info.
Proof.
  induction info as [|[f r] info IH]; [repeat split|].
  inversion Hfresh as [|? ? Hf Hrest]; subst. simpl in Hf.
  destruct (IH Hrest) as [IH1 [IH2 IH3]].
  unfold doneUrls in *. cbn [onChangeFileList map flat_map fst snd] in *.
  destruct r as [u|]; destruct (is_done f) eqn:Hd.
  - destruct (String.eqb_spec u "") as [Hu|Hu]; simpl negb; cbn [andb].
    + cbn [filter]. rewrite Hd. unfold url_truthy. rewrite Hf. simpl.
      repeat split; [exact IH1 | f_equal; exact IH2 | f_equal; exact IH3].
    + cbn [filter]. unfold is_done at 1. cbn [status].
      unfold is_done in Hd. rewrite Hd. unfold url_truthy. cbn [url].
      apply String.eqb_neq in Hu. rewrite Hu. simpl.
      repeat split; [f_equal; exact IH1 | f_equal; exact IH2 | f_equal; exact IH3].
  - cbn [andb]. cbn [filter]. rewrite Hd. simpl.
    repeat split; [exact IH1 | f_equal; exact IH2 | f_equal; exact IH3].
  - cbn [filter]. rewrite Hd. unfold url_truthy. rewrite Hf. simpl.
    repeat split; [exact IH1 | f_equal; exact IH2 | f_equal; exact IH3].
  - cbn [filter]. rewrite Hd. simpl.
    repeat split; [exact IH1 | f_equal; exact IH2 | f_equal; exact IH3].
Qed.

Lemma onChange_then_doneUrls_witness :
  doneUrls (onChangeFileList
    [({| uid := "1"; name := "a.png"; status := Some Done; url := None |}, Some "/f/a.png");
     ({| uid := "2"; name := "b.png"; status := Some Error; url := None |}, None);
     ({| uid := "3"; name := "c.png"; status := Some Done; url := None |}, Some "")])
  = ["/f/a.png"].
Proof.
  destruct (onChange_then_doneUrls
    [({| uid := "1"; name := "a.png"; status := Some Done; url := None |}, Some "/f/a.png");
     ({| uid := "2"; name := "b.png"; status := Some Error; url := None |}, None);
     ({| uid := "3"; name := "c.png"; status := Some Done; url := None |}, Some "")]
    ltac:(repeat constructor)) as [H _].
  rewrite H. reflexivity.
Defined.

(** X18: in the multi-image variant with a non-negative [maxCount], a
    confirm with finished uploads closes the modal, empties [fileList],
    and commits at most [maxCount] URLs: the committed ones first, then
    as many new ones as still fit; when more URLs than [maxCount] were
    already committed, the first [maxCount] of them are kept and no new
    one is added. *)
Theorem confirm_respects_maxCount (p : Multi.Props) (st : Multi.State)
  (Hm : (0 <= Multi.maxCount p)%Z)
  (Hnew : doneUrls (Multi.fileList st) <> []) :
  let st' := fst (Multi.handleConfirm p st) in
  let n := Z.to_nat (Multi.maxCount p) in
  Multi.modalVisible st' = false /\ Multi.fileList st' = []
  /\ length (Multi.imageUrls st')
     = Nat.min n (length (Multi.imageUrls st) + length (doneUrls (Multi.fileList st)))
  /\ ((length (Multi.imageUrls st) <= n)%nat ->
      Multi.imageUrls st'
      = (Multi.imageUrls st
         ++ firstn (n - length (Multi.imageUrls st)) (doneUrls (Multi.fileList st)))%list)
  /\ ((n <= length (Multi.imageUrls st))%nat ->
      Multi.imageUrls st' = firstn n (Multi.imageUrls st)).
Proof.
  intros st' n. unfold st', Multi.handleConfirm.
  destruct (doneUrls (Multi.fileList st)) as [|x xs] eqn:E; [contradiction|].
  cbn [length Nat.ltb Nat.leb]. cbv zeta. cbn [fst Multi.modalVisible Multi.fileList Multi.imageUrls].
  unfold slice0. apply Z.leb_le in Hm. rewrite Hm. fold n.
  split; [reflexivity|split; [reflexivity|split; [|split]]].
  - rewrite length_firstn, length_app. reflexivity.
  - intros Hle. rewrite firstn_app, firstn_all2 by exact Hle. reflexivity.
  - intros Hge. rewrite firstn_app.
    replace (n - length (Multi.imageUrls st))%nat with 0%nat by lia.
    rewrite app_nil_r. reflexivity.
Qed.

Lemma confirm_respects_maxCount_witness :
  Multi.imageUrls (fst (Multi.handleConfirm
    {| Multi.maxCount := 3;
       Multi.callbacks := {| hasOnChange := true; hasOnSuccess := false |} |}
    {| Multi.modalVisible := true;
       Multi.fileList :=
         [{| uid := "1"; name := "a.png"; status := Some Done; url := Some "/a" |};
          {| uid := "2"; name := "b.png"; status := Some Done; url := Some "/b" |}];
       Multi.imageUrls := ["/x"; "/y"] |}))
  = ["/x"; "/y"; "/a"].
Proof.
  destruct (confirm_respects_maxCount
    {| Multi.maxCount := 3;
       Multi.callbacks := {| hasOnChange := true; hasOnSuccess := false |} |}
    {| Multi.modalVisible := true;
       Multi.fileList :=
         [{| uid := "1"; name := "a.png"; status := Some Done; url := Some "/a" |};
          {| uid := "2"; name := "b.png"; status := Some Done; url := Some "/b" |}];
       Multi.imageUrls := ["/x"; "/y"] |}
    ltac:(simpl; lia) ltac:(discriminate)) as [_ [_ [_ [H _]]]].
  rewrite H by (simpl; lia). reflexivity.
Defined.


(** X20: in the second variant the URL is read from [response.data.url]:
    a response whose [data] is a string, the shape [uploadApi] declares,
    never commits an image and ends in [onError] with the response's
    [errorMessage] or ["上传失败"], while a truthy [success] with a
    non-empty string [data.url] commits that URL. *)
Theorem direct_upload_reads_data_url (cb : Callbacks) (st : Direct.State)
  (o : obj) :
  (forall s, obj_get o "data" = VStr s ->
     let res := Direct.handleUpload cb (Ok (VObj o)) st in
     Direct.imageUrl (fst res) = Direct.imageUrl st
     /\ Direct.modalVisible (fst res) = Direct.modalVisible st
     /\ Direct.uploading (fst res) = false
     /\ snd res = [Direct.UploadError
                     (VObj [("message", js_or (obj_get o "errorMessage")
                                             (VStr "上传失败"))])])
  /\ (forall d u, truthy (obj_get o "success") = true ->
        obj_get o "data" = VObj d -> obj_get d "url" = VStr u -> u <> "" ->
        let res := Direct.handleUpload cb (Ok (VObj o)) st in
        Direct.imageUrl (fst res) = VStr u
        /\ Direct.modalVisible (fst res) = false
        /\ Direct.uploading (fst res) = false
        /\ snd res = (Direct.notify cb (VStr u) ++ [Direct.UploadSuccess (VObj o)])%list).
Proof.
  split.
  - intros s Hd res. unfold res, Direct.handleUpload, Direct.successUrl, get.
    destruct (truthy (obj_get o "success")) eqn:Hs.
    + rewrite Hd. simpl. repeat split.
    + rewrite Hs. simpl. repeat split.
  - intros d u Hs Hd Hu Hne res. unfold res, Direct.handleUpload, Direct.successUrl, get.
    rewrite Hs, Hd. simpl loose_null. cbv iota. rewrite Hu.
    replace (truthy (VStr u)) with true by (destruct u; [contradiction|reflexivity]).
    repeat split.
Qed.
